(** * FlowState (Tai Chi Flow): job polling, IPC handlers, application store,
      coordinate transform and schema validation

    A shallow embedding of the parts of the repository that its design
    document makes promises about:

    - [Js]: JavaScript values as the code handles them (numbers are IEEE
      binary64, modelled by the kernel's primitive floats);
    - [CoordinateTransformer]: the video-to-scene transform of the
      StickFigure component;
    - [AppStore]: the zustand store of [store/appStore.ts];
    - [MainIpc]: the four job-lifecycle handlers of [electron/main.js];
    - [VideoCaptureIpc], [VideoCaptureHttp]: the status-polling effect of the
      two versions of [components/VideoCapture.tsx];
    - [SchemaValidator]: the animation-document validator, whose code is not
      part of the sources and is modelled from the design document.

    Definitions come first, theorems after them. *)

From Stdlib Require Import ZArith Lia Floats.
From stdpp Require Import base strings list gmap pretty.

(* ===================================================================== *)
(** ** JavaScript values *)
(* ===================================================================== *)

Module Js.

(** A JavaScript number is an IEEE 754 binary64 value. *)
Abbreviation number := float.

(** Plain data as it crosses JSON, IPC and the store.  An object is the list of
    its own properties in insertion order, each key once. *)
#[warnings="-register-all"]
Inductive value : Type :=
| VUndefined
| VNull
| VBool (b : bool)
| VNum (n : number)
| VStr (s : string)
| VArr (items : list value)
| VObj (props : list (string * value)).

(** [ToBoolean]: [undefined], [null], [false], [0], [-0], [NaN] and the empty
    string are falsy, everything else is truthy. *)
Definition truthy (v : value) : bool :=
  match v with
  | VUndefined | VNull => false
  | VBool b => b
  | VNum n => negb (PrimFloat.eqb n 0 || PrimFloat.is_nan n)
  | VStr s => negb (String.eqb s "")
  | VArr _ | VObj _ => true
  end.

(** [a || b] *)
Definition or_else (a b : value) : value := if truthy a then a else b.

Fixpoint assoc (k : string) (props : list (string * value)) : option value :=
  match props with
  | [] => None
  | (k', v) :: rest => if String.eqb k k' then Some v else assoc k rest
  end.

(** [v?.k] for a key [k] that no primitive wrapper or array defines (such as
    [error], [data], [response]): the property of an object, [undefined]
    otherwise, and in particular [undefined] on [null] and [undefined]. *)
Definition opt_get (v : value) (k : string) : value :=
  match v with
  | VObj props => default VUndefined (assoc k props)
  | _ => VUndefined
  end.

Definition is_string (v : value) : bool :=
  match v with VStr _ => true | _ => false end.

(** [{...a, ...b}] on objects used as maps: the keys of [b] win. *)
Definition spread (a b : gmap string value) : gmap string value := b ∪ a.

End Js.

(* ===================================================================== *)
(** ** Coordinate transformer (StickFigure, "Video to Three.js coordinates") *)
(* ===================================================================== *)

Module CoordinateTransformer.
Import Js.

Definition Landmark : Type := number * number * number.

(** <<
    const x = (landmark[0] - 0.5) * 2 * (mirrored ? -1 : 1);
    const y = -(landmark[1] - 0.5) * 2;
    const z = -landmark[2] * 2;
    >>
    Unary minus binds tighter than [*] in JavaScript, so [y] is
    [(-(landmark[1] - 0.5)) * 2] and [z] is [(-landmark[2]) * 2]. *)
Definition toScene (landmark : Landmark) (mirrored : bool) : Landmark :=
  let '(l0, l1, l2) := landmark in
  let x := ((l0 - 0.5) * 2 * (if mirrored then -1 else 1))%float in
  let y := ((- (l1 - 0.5)) * 2)%float in
  let z := ((- l2) * 2)%float in
  (x, y, z).

(** The transformation table of the data-model document: the three axis
    maps, then [Mirror: x * -1] when mirroring is on. *)
Definition axisX (x : number) : number := ((x - 0.5) * 2)%float.
Definition axisY (y : number) : number := ((- (y - 0.5)) * 2)%float.
Definition axisZ (z : number) : number := ((- z) * 2)%float.
Definition mirrorX (x : number) : number := (x * -1)%float.

(** Negation of the scene-space x coordinate. *)
Definition negX (p : Landmark) : Landmark :=
  let '(x, y, z) := p in ((- x)%float, y, z).

End CoordinateTransformer.

(* ===================================================================== *)
(** ** The application store (store/appStore.ts) *)
(* ===================================================================== *)

Module AppStore.
Import Js.

Record BackendStatus : Type := {
  status : string;
  message : option string;
  code : option number
}.

Record Session : Type := {
  id : string;
  timestamp : number;
  session_videoPath : option string;
  session_motionData : option (list value);
  session_flowMetrics : option value;
  analysis : option value
}.

(** The data fields of [AppState].  The action fields are the functions
    below; no action replaces them. *)
Record AppState : Type := {
  backendStatus : BackendStatus;
  currentSession : option Session;
  sessions : list Session;
  videoPath : option string;
  isProcessing : bool;
  processingProgress : number;
  motionData : list value;
  currentFrame : number;
  flowMetrics : gmap string value;
  settings : gmap string value
}.

(** One property of the partial state object handed to zustand's [set]. *)
Inductive Property : Type :=
| backendStatus_is (v : BackendStatus)
| currentSession_is (v : option Session)
| videoPath_is (v : option string)
| isProcessing_is (v : bool)
| processingProgress_is (v : number)
| motionData_is (v : list value)
| currentFrame_is (v : number)
| flowMetrics_is (v : gmap string value)
| settings_is (v : gmap string value).

Definition assign (s : AppState) (p : Property) : AppState :=
  match p with
  | backendStatus_is v =>
      {| backendStatus := v; currentSession := currentSession s; sessions := sessions s;
         videoPath := videoPath s; isProcessing := isProcessing s;
         processingProgress := processingProgress s; motionData := motionData s;
         currentFrame := currentFrame s; flowMetrics := flowMetrics s; settings := settings s |}
  | currentSession_is v =>
      {| backendStatus := backendStatus s; currentSession := v; sessions := sessions s;
         videoPath := videoPath s; isProcessing := isProcessing s;
         processingProgress := processingProgress s; motionData := motionData s;
         currentFrame := currentFrame s; flowMetrics := flowMetrics s; settings := settings s |}
  | videoPath_is v =>
      {| backendStatus := backendStatus s; currentSession := currentSession s; sessions := sessions s;
         videoPath := v; isProcessing := isProcessing s;
         processingProgress := processingProgress s; motionData := motionData s;
         currentFrame := currentFrame s; flowMetrics := flowMetrics s; settings := settings s |}
  | isProcessing_is v =>
      {| backendStatus := backendStatus s; currentSession := currentSession s; sessions := sessions s;
         videoPath := videoPath s; isProcessing := v;
         processingProgress := processingProgress s; motionData := motionData s;
         currentFrame := currentFrame s; flowMetrics := flowMetrics s; settings := settings s |}
  | processingProgress_is v =>
      {| backendStatus := backendStatus s; currentSession := currentSession s; sessions := sessions s;
         videoPath := videoPath s; isProcessing := isProcessing s;
         processingProgress := v; motionData := motionData s;
         currentFrame := currentFrame s; flowMetrics := flowMetrics s; settings := settings s |}
  | motionData_is v =>
      {| backendStatus := backendStatus s; currentSession := currentSession s; sessions := sessions s;
         videoPath := videoPath s; isProcessing := isProcessing s;
         processingProgress := processingProgress s; motionData := v;
         currentFrame := currentFrame s; flowMetrics := flowMetrics s; settings := settings s |}
  | currentFrame_is v =>
      {| backendStatus := backendStatus s; currentSession := currentSession s; sessions := sessions s;
         videoPath := videoPath s; isProcessing := isProcessing s;
         processingProgress := processingProgress s; motionData := motionData s;
         currentFrame := v; flowMetrics := flowMetrics s; settings := settings s |}
  | flowMetrics_is v =>
      {| backendStatus := backendStatus s; currentSession := currentSession s; sessions := sessions s;
         videoPath := videoPath s; isProcessing := isProcessing s;
         processingProgress := processingProgress s; motionData := motionData s;
         currentFrame := currentFrame s; flowMetrics := v; settings := settings s |}
  | settings_is v =>
      {| backendStatus := backendStatus s; currentSession := currentSession s; sessions := sessions s;
         videoPath := videoPath s; isProcessing := isProcessing s;
         processingProgress := processingProgress s; motionData := motionData s;
         currentFrame := currentFrame s; flowMetrics := flowMetrics s; settings := v |}
  end.

(** zustand's [set(partial)]: the properties of [partial] are merged into the
    state, every other property is kept.  [set(fn)] is [set(fn(state))]. *)
Definition set (partial : list Property) (s : AppState) : AppState :=
  fold_left assign partial s.

Definition set_with (fn : AppState -> list Property) (s : AppState) : AppState :=
  set (fn s) s.

Definition initialFlowMetrics : gmap string value :=
  list_to_map [("coherence", VNum 0); ("smoothness", VNum 0); ("balance", VNum 0);
               ("energy", VNum 0); ("focus", VNum 0)].

Definition initialSettings : gmap string value :=
  list_to_map [("theme", VStr "dark"); ("showSkeleton", VBool true);
               ("showTrajectories", VBool true); ("playbackSpeed", VNum 1);
               ("autoDetectFlow", VBool true)].

Definition initialState : AppState :=
  {| backendStatus := {| status := "idle"; message := None; code := None |};
     currentSession := None;
     sessions := [];
     videoPath := None;
     isProcessing := false;
     processingProgress := 0;
     motionData := [];
     currentFrame := 0;
     flowMetrics := initialFlowMetrics;
     settings := initialSettings |}.

Definition setBackendStatus (status : BackendStatus) : AppState -> AppState :=
  set [backendStatus_is status].

Definition loadSession (session : Session) : AppState -> AppState :=
  set [currentSession_is (Some session)].

Definition setVideoPath (path : option string) : AppState -> AppState :=
  set [videoPath_is path].

Definition setIsProcessing (processing : bool) : AppState -> AppState :=
  set [isProcessing_is processing].

Definition setProcessingProgress (progress : number) : AppState -> AppState :=
  set [processingProgress_is progress].

Definition setMotionData (data : list value) : AppState -> AppState :=
  set [motionData_is data].

(** [setCurrentFrame: (frame) => set({ currentFrame: frame })] *)
Definition setCurrentFrame (frame : number) : AppState -> AppState :=
  set [currentFrame_is frame].

(** [updateFlowMetrics: (metrics) => set((state) =>
      ({ flowMetrics: { ...state.flowMetrics, ...metrics } }))] *)
Definition updateFlowMetrics (metrics : gmap string value) : AppState -> AppState :=
  set_with (fun state => [flowMetrics_is (spread (flowMetrics state) metrics)]).

(** [updateSettings: (newSettings) => set((state) =>
      ({ settings: { ...state.settings, ...newSettings } }))] *)
Definition updateSettings (newSettings : gmap string value) : AppState -> AppState :=
  set_with (fun state => [settings_is (spread (settings state) newSettings)]).

(** [resetApp]'s [set({...})], before it creates the next session. *)
Definition resetFields : AppState -> AppState :=
  set [currentSession_is None; videoPath_is None; isProcessing_is false;
       processingProgress_is 0; motionData_is []; currentFrame_is 0;
       flowMetrics_is initialFlowMetrics].

(** The number of frames a seek could be clamped against: the loaded motion
    data ([totalFrames]). *)
Definition totalFrames (s : AppState) : nat := length (motionData s).

(** [Math.max(lo, Math.min(f, hi))] on ordered numbers: what clamping a
    frame index to [[lo, hi]] would store. *)
Definition clamp (lo hi f : number) : number :=
  if PrimFloat.ltb f lo then lo else if PrimFloat.ltb hi f then hi else f.

(** A store with ten frames of motion data loaded. *)
Definition tenFrames : AppState := setMotionData (replicate 10 VNull) initialState.

(** [{ playbackSpeed: s }] *)
Definition speed_update (s : number) : gmap string value :=
  {[ "playbackSpeed" := VNum s ]}.

(** A speed the playback engine of the design would refuse: NaN, or not
    above zero. *)
Definition invalid_speed (s : number) : bool :=
  PrimFloat.is_nan s || PrimFloat.leb s 0.

End AppStore.

(* ===================================================================== *)
(** ** Promises, exceptions and requests *)
(* ===================================================================== *)

Module Async.
Import Js.

(** What the code of this repository catches: an [Error] object.  axios
    rejects with an [AxiosError], whose [response] is the server's answer
    (an object with a [data] property) when the server answered and
    [undefined] when the request never got one; Node's own errors have no
    [response]. *)
Record JsError : Type := {
  message : string;
  response : value
}.

(** A settled promise, or equally the outcome of a [try] body. *)
Inductive Settled (A : Type) : Type :=
| Fulfilled (a : A)
| Rejected (e : JsError).
Arguments Fulfilled {A} a.
Arguments Rejected {A} e.

(** [await p; k] inside an [async] function *)
Definition and_then {A B : Type} (p : Settled A) (k : A -> Settled B) : Settled B :=
  match p with
  | Fulfilled a => k a
  | Rejected e => Rejected e
  end.

(** [try { body } catch (error) { handler }] *)
Definition try_catch {A : Type} (body : Settled A) (handler : JsError -> Settled A) : Settled A :=
  match body with
  | Fulfilled a => Fulfilled a
  | Rejected e => handler e
  end.

#[global] Instance settled_ret : MRet Settled := fun A a => Fulfilled a.
#[global] Instance settled_bind : MBind Settled := fun A B k p => and_then p k.

Inductive Method : Type := GET | POST.

Record Request : Type := {
  method : Method;
  url : string;
  body : value
}.

Record AxiosResponse : Type := { data : value }.

(** The backend as the main process sees it: how each request settles. *)
Definition Backend : Type := Request -> Settled AxiosResponse.

End Async.

(* ===================================================================== *)
(** ** Main-process IPC handlers (electron/main.js) *)
(* ===================================================================== *)

Module MainIpc.
Import Js Async.

Definition BACKEND_URL : string := "http://127.0.0.1:5000".

(** The renderer hands each handler one string ([videoPath] or [videoId]),
    which the handler splices into the request. *)

(** [{ success: true, data: response.data }] *)
Definition success (response : AxiosResponse) : value :=
  VObj [("success", VBool true); ("data", data response)].

(** [{ success: false, error: error.response?.data?.error || error.message }] *)
Definition failure (error : JsError) : value :=
  VObj [("success", VBool false);
        ("error", or_else (opt_get (opt_get (response error) "data") "error")
                          (VStr (message error)))].

(** An error thrown by the JavaScript engine or by Node itself (a
    [ReferenceError], a [TypeError], a [require] that fails): an [Error] with
    a message and no [response]. *)
Definition plain_error (message : string) : JsError :=
  {| message := message; response := VUndefined |}.

(** What a synchronous call into Node does: it returns, or it throws such an
    error. *)
Inductive Sync (A : Type) : Type :=
| Returns (a : A)
| Throws (message : string).
Arguments Returns {A} a.
Arguments Throws {A} message.

Definition settle {A : Type} (r : Sync A) : Settled A :=
  match r with
  | Returns a => Fulfilled a
  | Throws m => Rejected (plain_error m)
  end.

(** What the upload handler asks of Node before it reaches axios:
    [require('form-data')] and [fs.createReadStream(videoPath)], either of
    which may throw; the stream is the form's [video] part. *)
Record Node : Type := {
  require_form_data : Sync unit;
  createReadStream : string -> Sync value
}.

(** [ipcMain.handle('upload-video', async (event, videoPath) => ...)] *)
Definition upload_video (node : Node) (axios : Backend) (videoPath : string) : Settled value :=
  try_catch
    (_ ← settle (require_form_data node);
     stream ← settle (createReadStream node videoPath);
     response ← axios {| method := POST; url := BACKEND_URL +:+ "/video/upload";
                          body := VObj [("video", stream)] |};
     mret (success response))
    (fun error => Fulfilled (failure error)).

(** [ipcMain.handle('process-video', async (event, videoId) => ...)] *)
Definition process_video (axios : Backend) (videoId : string) : Settled value :=
  try_catch
    (response ← axios {| method := POST; url := BACKEND_URL +:+ "/video/process/" +:+ videoId;
                          body := VUndefined |};
     mret (success response))
    (fun error => Fulfilled (failure error)).

(** [ipcMain.handle('get-video-status', async (event, videoId) => ...)] *)
Definition get_video_status (axios : Backend) (videoId : string) : Settled value :=
  try_catch
    (response ← axios {| method := GET; url := BACKEND_URL +:+ "/video/status/" +:+ videoId;
                          body := VUndefined |};
     mret (success response))
    (fun error => Fulfilled (failure error)).

(** [ipcMain.handle('get-video-results', async (event, videoId) => ...)] *)
Definition get_video_results (axios : Backend) (videoId : string) : Settled value :=
  try_catch
    (response ← axios {| method := GET; url := BACKEND_URL +:+ "/video/results/" +:+ videoId;
                          body := VUndefined |};
     mret (success response))
    (fun error => Fulfilled (failure error)).

(** The two shapes of a handler's answer. *)
Definition is_success (r : value) : Prop :=
  exists d, r = VObj [("success", VBool true); ("data", d)].

Definition is_failure (r : value) : Prop :=
  exists e, r = VObj [("success", VBool false); ("error", e)].

Definition is_failure_with_string (r : value) : Prop :=
  exists msg, r = VObj [("success", VBool false); ("error", VStr msg)].

(** The backend's error payload, as the handlers read it. *)
Definition payload_error (error : JsError) : value :=
  opt_get (opt_get (response error) "data") "error".

(** What [axios] is in main.js.  The file requires [electron], [path],
    [electron-is-dev], [child_process] and [fs] (its lines 1-5) and, inside the
    upload handler, [form-data]; nothing binds the identifier [axios].  So
    evaluating [axios.get(...)], [axios.post(...)] or [axios(config)] throws
    [ReferenceError: axios is not defined] before a request is built, whatever
    the backend would have answered, and every such call sits inside a [try]. *)
Definition axios : Backend :=
  fun _ => Rejected (plain_error "axios is not defined").

(** [{ success: false, error }] with a string for [error]. *)
Definition failed (msg : string) : value :=
  VObj [("success", VBool false); ("error", VStr msg)].

End MainIpc.

(* ===================================================================== *)
(** ** The status-polling effect of VideoCapture: shared vocabulary *)
(* ===================================================================== *)

Module Polling.
Import Js Async.

(** [response.data] of a status request: [{ status, progress }]. *)
Record Snapshot : Type := {
  status : string;
  progress : number
}.

(** [status === 'completed'], [status === 'error'] *)
Definition completed (s : Snapshot) : bool := String.eqb (status s) "completed".
Definition errored (s : Snapshot) : bool := String.eqb (status s) "error".
Definition terminal (s : Snapshot) : bool := completed s || errored s.

(** [resultsResponse.data]: [{ results }]. *)
Record ResultsData : Type := { results : value }.

(** The component's React state ([useState]) and the store it reads. *)
Record Component : Type := {
  isPlaying : bool;
  videoId : option string;
  processingResults : option value;
  error : option string;
  store : AppStore.AppState
}.

Definition setError (e : option string) (c : Component) : Component :=
  {| isPlaying := isPlaying c; videoId := videoId c;
     processingResults := processingResults c; error := e; store := store c |}.

Definition setProcessingResults (r : option value) (c : Component) : Component :=
  {| isPlaying := isPlaying c; videoId := videoId c;
     processingResults := r; error := error c; store := store c |}.

Definition on_store (f : AppStore.AppState -> AppStore.AppState) (c : Component) : Component :=
  {| isPlaying := isPlaying c; videoId := videoId c;
     processingResults := processingResults c; error := error c; store := f (store c) |}.

Definition setIsProcessing (b : bool) : Component -> Component :=
  on_store (AppStore.setIsProcessing b).

Definition setProcessingProgress (p : number) : Component -> Component :=
  on_store (AppStore.setProcessingProgress p).

(** What one run of the effect does that the outside can see, oldest first:
    a status request sent, a status snapshot received, a results request
    sent. *)
Inductive Event : Type :=
| PollRequest (videoId : string)
| Observed (s : Snapshot)
| ResultsRequest (videoId : string).

(** One run of the effect: the component, whether the interval the effect
    created is still set, how many status requests are awaiting their answer,
    and the events so far. *)
Record Run : Type := {
  component : Component;
  interval : bool;
  inflight : nat;
  trace : list Event
}.

Definition on_component (f : Component -> Component) (r : Run) : Run :=
  {| component := f (component r); interval := interval r;
     inflight := inflight r; trace := trace r |}.

Definition clearInterval (r : Run) : Run :=
  {| component := component r; interval := false;
     inflight := inflight r; trace := trace r |}.

Definition emit (e : Event) (r : Run) : Run :=
  {| component := component r; interval := interval r;
     inflight := inflight r; trace := trace r ++ [e] |}.

Definition request_sent (r : Run) : Run :=
  {| component := component r; interval := interval r;
     inflight := S (inflight r); trace := trace r |}.

Definition request_settled (r : Run) : Run :=
  {| component := component r; interval := interval r;
     inflight := pred (inflight r); trace := trace r |}.

(** [videoId && ...]: a string is truthy when it is not empty. *)
Definition has_videoId (c : Component) : bool :=
  match videoId c with
  | Some v => negb (String.eqb v "")
  | None => false
  end.

(** The [videoId] the effect's closure holds. *)
Definition the_videoId (r : Run) : string := default "" (videoId (component r)).

(** What the environment does to a run: the timer fires, or one of the status
    requests in flight settles with [poll].  [fetch] is how the results request
    settles, should the continuation send one. *)
Inductive Step (P F : Type) : Type :=
| TimerFires
| StatusSettles (poll : P) (fetch : F).
Arguments TimerFires {P F}.
Arguments StatusSettles {P F} poll fetch.

(** The schedule in which no two status requests overlap: every tick of the
    timer is answered before the next one. *)
Definition in_turn {P F : Type} (answers : list (P * F)) : list (Step P F) :=
  flat_map (fun a => [TimerFires; StatusSettles (fst a) (snd a)]) answers.

(** The events of rounds in which the status request got a snapshot before
    the next tick: each round its request and the snapshot. *)
Definition rounds (vid : string) (snaps : list Snapshot) : list Event :=
  flat_map (fun s => [PollRequest vid; Observed s]) snaps.

(** The snapshots a trace observed, and its requests. *)
Definition snapshots (tr : list Event) : list Snapshot :=
  omap (fun e => match e with Observed s => Some s | _ => None end) tr.

Definition is_poll (e : Event) : bool :=
  match e with PollRequest _ => true | _ => false end.

Definition is_fetch (e : Event) : bool :=
  match e with ResultsRequest _ => true | _ => false end.

Definition is_terminal_snapshot (e : Event) : bool :=
  match e with Observed s => terminal s | _ => false end.

(** The traces a polling run can build, for the video id [vid] its closure
    holds: a status request is sent only while no terminal snapshot has been
    seen, a snapshot that is not [completed] is recorded alone, and a
    [completed] one is followed at once by the results request. *)
Inductive Wf (vid : string) : list Event -> Prop :=
| Wf_nil : Wf vid []
| Wf_poll tr :
    Wf vid tr -> Forall (fun e => is_terminal_snapshot e = false) tr ->
    Wf vid (tr ++ [PollRequest vid])
| Wf_observed tr s :
    Wf vid tr -> completed s = false -> Wf vid (tr ++ [Observed s])
| Wf_completed tr s :
    Wf vid tr -> completed s = true ->
    Wf vid (tr ++ [Observed s; ResultsRequest vid]).

(** What every state of a run started on the component [c0] satisfies. *)
Definition Inv (electronAPI : bool) (c0 : Component) (r : Run) : Prop :=
  videoId (component r) = videoId c0
  /\ Wf (default "" (videoId c0)) (trace r)
  /\ (interval r = true -> Forall (fun e => is_terminal_snapshot e = false) (trace r))
  /\ (inflight r <> 0 -> electronAPI = true).

(** Once a terminal snapshot is observed, no status request follows. *)
Definition stops_polling_at_terminal (tr : list Event) : Prop :=
  forall pre s post,
    tr = pre ++ Observed s :: post -> terminal s = true ->
    Forall (fun e => is_poll e = false) post.

(** When the snapshots end in the first [completed] one, the trace ends in
    that snapshot and the one results request, and holds no other results
    request. *)
Definition fetches_once_on_completion (vid : string) (tr : list Event) : Prop :=
  forall pre s,
    snapshots tr = pre ++ [s] -> completed s = true ->
    Forall (fun s' => completed s' = false) pre ->
    exists before,
      tr = before ++ [Observed s; ResultsRequest vid]
      /\ Forall (fun e => is_fetch e = false) before.

(** When the snapshots end in a [completed] one, whatever came before it, the
    trace ends in that snapshot and the one results request. *)
Definition ends_in_one_fetch (vid : string) (tr : list Event) : Prop :=
  forall pre s,
    snapshots tr = pre ++ [s] -> completed s = true ->
    exists before,
      tr = before ++ [Observed s; ResultsRequest vid]
      /\ Forall (fun e => is_fetch e = false) before.

(** Only the last snapshot of a trace may be terminal. *)
Definition terminal_only_last (tr : list Event) : Prop :=
  forall pre s, snapshots tr = pre ++ [s] -> Forall (fun s' => terminal s' = false) pre.

(** What holds between the rounds of a run whose status requests do not
    overlap. *)
Definition between_rounds (r : Run) : Prop :=
  inflight r = 0
  /\ (interval r = true -> Forall (fun e => is_terminal_snapshot e = false) (trace r))
  /\ terminal_only_last (trace r).

(** The retry policy of the design document, for [fail] one failed status
    request: the first failure leaves the component as it was and polling on,
    and after [bound] more failures in a row polling has stopped and an error
    is shown. *)
Definition retries_then_gives_up (fail : Run -> Run) (bound : nat) (r : Run) : Prop :=
  interval (fail r) = true
  /\ component (fail r) = component r
  /\ interval (Nat.iter (S bound) fail r) = false
  /\ error (component (Nat.iter (S bound) fail r)) <> None.

End Polling.

(* ===================================================================== *)
(** ** VideoCapture over IPC ([window.electronAPI]) *)
(* ===================================================================== *)

Module VideoCaptureIpc.
Import Js Async Polling.

(** What [window.electronAPI.getVideoStatus] and [getVideoResults] resolve to:
    [{ success: boolean; data?: any; error?: string }]. *)
Inductive IpcResult (A : Type) : Type :=
| IpcSuccess (data : A)
| IpcFailure (error : option string).
Arguments IpcSuccess {A} data.
Arguments IpcFailure {A} error.

(** [e || fallback] for an optional string. *)
Definition or_message (e : option string) (fallback : string) : string :=
  match e with
  | Some m => if String.eqb m "" then fallback else m
  | None => fallback
  end.

(** The effect body: [if (videoId && isProcessing && window.electronAPI)] an
    interval is set.  [electronAPI] says whether the preload script exposed
    the API; it does not change while the page lives. *)
Definition startPolling (electronAPI : bool) (c : Component) : Run :=
  {| component := c;
     interval := has_videoId c && AppStore.isProcessing (store c) && electronAPI;
     inflight := 0;
     trace := [] |}.

(** The [catch] block of the interval callback. *)
Definition on_catch (r : Run) : Run :=
  clearInterval
    (on_component (setIsProcessing false)
       (on_component (setError (Some "Failed to communicate with backend.")) r)).

(** The callback up to its first [await]. *)
Definition timerFires (electronAPI : bool) (r : Run) : Run :=
  if interval r then
    if negb electronAPI then clearInterval r
    else request_sent (emit (PollRequest (the_videoId r)) r)
  else r.

(** After [await window.electronAPI.getVideoResults(videoId)]. *)
Definition resultsSettled (fetch : Settled (IpcResult ResultsData)) (r : Run) : Run :=
  match fetch with
  | Fulfilled (IpcSuccess d) => on_component (setProcessingResults (Some (results d))) r
  | Fulfilled (IpcFailure e) =>
      on_component (setError (Some (or_message e "Failed to fetch results."))) r
  | Rejected _ => on_catch r
  end.

(** The callback after [await window.electronAPI.getVideoStatus(videoId)]. *)
Definition statusSettled (electronAPI : bool)
    (poll : Settled (IpcResult Snapshot)) (fetch : Settled (IpcResult ResultsData))
    (r : Run) : Run :=
  match poll with
  | Fulfilled (IpcSuccess snap) =>
      let r := emit (Observed snap) (on_component (setProcessingProgress (progress snap)) r) in
      if completed snap then
        let r := on_component (setIsProcessing false) (clearInterval r) in
        if electronAPI then resultsSettled fetch (emit (ResultsRequest (the_videoId r)) r)
        else r
      else if errored snap then
        on_component (setError (Some "Processing failed. Please try again."))
          (on_component (setIsProcessing false) (clearInterval r))
      else r
  | Fulfilled (IpcFailure _) => r
  | Rejected _ => on_catch r
  end.

Definition step (electronAPI : bool) (r : Run)
    (e : Step (Settled (IpcResult Snapshot)) (Settled (IpcResult ResultsData))) : Run :=
  match e with
  | TimerFires => timerFires electronAPI r
  | StatusSettles poll fetch =>
      match inflight r with
      | O => r
      | S _ => statusSettled electronAPI poll fetch (request_settled r)
      end
  end.

Definition run (electronAPI : bool) (c : Component)
    (schedule : list (Step (Settled (IpcResult Snapshot)) (Settled (IpcResult ResultsData)))) : Run :=
  fold_left (step electronAPI) schedule (startPolling electronAPI c).

End VideoCaptureIpc.

(* ===================================================================== *)
(** ** VideoCapture over HTTP (axios) *)
(* ===================================================================== *)

Module VideoCaptureHttp.
Import Js Async Polling.

(** The effect body: [if (videoId && isProcessing)] an interval is set. *)
Definition startPolling (c : Component) : Run :=
  {| component := c;
     interval := has_videoId c && AppStore.isProcessing (store c);
     inflight := 0;
     trace := [] |}.

(** The callback up to its first [await]. *)
Definition timerFires (r : Run) : Run :=
  if interval r then request_sent (emit (PollRequest (the_videoId r)) r) else r.

(** After [await axios.get(`${API_URL}/video/results/${videoId}`)]; a
    rejection lands in the [catch] block, which only logs. *)
Definition resultsSettled (fetch : Settled ResultsData) (r : Run) : Run :=
  match fetch with
  | Fulfilled d => on_component (setProcessingResults (Some (results d))) r
  | Rejected _ => r
  end.

(** The callback after [await axios.get(`${API_URL}/video/status/${videoId}`)];
    a rejection lands in the [catch] block, which only logs. *)
Definition statusSettled (poll : Settled Snapshot) (fetch : Settled ResultsData)
    (r : Run) : Run :=
  match poll with
  | Fulfilled snap =>
      let r := emit (Observed snap) (on_component (setProcessingProgress (progress snap)) r) in
      if completed snap then
        let r := on_component (setIsProcessing false) (clearInterval r) in
        resultsSettled fetch (emit (ResultsRequest (the_videoId r)) r)
      else if errored snap then
        on_component (setError (Some "Processing failed. Please try again."))
          (on_component (setIsProcessing false) (clearInterval r))
      else r
  | Rejected _ => r
  end.

Definition step (r : Run) (e : Step (Settled Snapshot) (Settled ResultsData)) : Run :=
  match e with
  | TimerFires => timerFires r
  | StatusSettles poll fetch =>
      match inflight r with
      | O => r
      | S _ => statusSettled poll fetch (request_settled r)
      end
  end.

Definition run (c : Component)
    (schedule : list (Step (Settled Snapshot) (Settled ResultsData))) : Run :=
  fold_left step schedule (startPolling c).

End VideoCaptureHttp.

(* ===================================================================== *)
(** ** Schema validator (AnimationLoader.validateAnimationData) *)
(* ===================================================================== *)

Module SchemaValidator.
Import Js.

Inductive Tag : Type :=
| MissingField | TypeMismatch | ShapeMismatch | OutOfRange | NonMonotonicSequence.

Record ValidationError : Type := {
  tag : Tag;
  path : string
}.

Inductive Result (A : Type) : Type :=
| Ok (a : A)
| Err (e : ValidationError).
Arguments Ok {A} a.
Arguments Err {A} e.

#[global] Instance result_ret : MRet Result := fun A a => Ok a.
#[global] Instance result_bind : MBind Result :=
  fun A B k r => match r with Ok a => k a | Err e => Err e end.

Definition fail {A : Type} (t : Tag) (p : string) : Result A :=
  Err {| tag := t; path := p |}.

(** The canonical types, as the API document declares them. *)
Definition Point3 : Type := number * number * number.
Definition Point4 : Type := number * number * number * number.

Record HandData : Type := {
  hand_landmarks : list Point3;
  handedness : string
}.

Record FrameLandmarks : Type := {
  pose : option (list Point3);
  world_pose : option (list Point4);
  left_hand : option HandData;
  right_hand : option HandData
}.

Record AnimationFrame : Type := {
  frame : number;
  time : number;
  landmarks : FrameLandmarks
}.

Record Metadata : Type := {
  fps : number;
  total_frames : number;
  processed_size : number;
  original_bbox : list number
}.

Record Skeleton : Type := {
  pose_connections : list (number * number);
  hand_connections : list (number * number);
  pose_names : list string;
  hand_names : list string
}.

Record AnimationData : Type := {
  metadata : Metadata;
  skeleton : Skeleton;
  frames : list AnimationFrame
}.

(** A position in an array, as a number. *)
Definition index_number (i : nat) : number :=
  PrimFloat.of_uint63 (Uint63.of_Z (Z.of_nat i)).

Definition at_index (p : string) (i : nat) : string := p +:+ "[" +:+ pretty i +:+ "]".
Definition dot (p k : string) : string := p +:+ "." +:+ k.

(** Reading an unstructured document. *)
Definition field (p k : string) (v : value) : Result value :=
  match v with
  | VObj props =>
      match assoc k props with
      | Some x => Ok x
      | None => fail MissingField (dot p k)
      end
  | _ => fail TypeMismatch p
  end.

Definition as_number (p : string) (v : value) : Result number :=
  match v with VNum n => Ok n | _ => fail TypeMismatch p end.

Definition as_string (p : string) (v : value) : Result string :=
  match v with VStr x => Ok x | _ => fail TypeMismatch p end.

Definition as_array (p : string) (v : value) : Result (list value) :=
  match v with VArr l => Ok l | _ => fail TypeMismatch p end.

Definition positive (p : string) (n : number) : Result number :=
  if PrimFloat.ltb 0 n then Ok n else fail OutOfRange p.

Definition within (lo hi : number) (p : string) (n : number) : Result number :=
  if PrimFloat.leb lo n && PrimFloat.leb n hi then Ok n else fail OutOfRange p.

Definition has_length (n : nat) (p : string) (l : list value) : Result (list value) :=
  if Nat.eqb (length l) n then Ok l else fail ShapeMismatch p.

(** [check i x] on every element with its position, stopping at the first
    failure. *)
Fixpoint each {A B : Type} (check : nat -> A -> Result B) (i : nat) (l : list A)
    : Result (list B) :=
  match l with
  | [] => Ok []
  | x :: rest =>
      y ← check i x;
      ys ← each check (S i) rest;
      Ok (y :: ys)
  end.

Definition optional {A : Type} (check : value -> Result A) (v : value) : Result (option A) :=
  match v with
  | VNull | VUndefined => Ok None
  | _ => a ← check v; Ok (Some a)
  end.

(** Modelled from the spec: the metadata check of the validator (the code of
    [AnimationLoader.validateAnimationData] is not among the sources).  Field
    presence, then types, then positivity; the bounding box is exactly four
    numbers. *)
Definition check_metadata (raw : value) : Result Metadata :=
  md ← field "" "metadata" raw;
  v_fps ← field "metadata" "fps" md;
  v_total ← field "metadata" "total_frames" md;
  v_size ← field "metadata" "processed_size" md;
  v_bbox ← field "metadata" "original_bbox" md;
  n_fps ← as_number "metadata.fps" v_fps;
  n_total ← as_number "metadata.total_frames" v_total;
  n_size ← as_number "metadata.processed_size" v_size;
  l_bbox ← as_array "metadata.original_bbox" v_bbox;
  l_bbox ← has_length 4 "metadata.original_bbox" l_bbox;
  bbox ← each (fun i => as_number (at_index "metadata.original_bbox" i)) 0 l_bbox;
  n_fps ← positive "metadata.fps" n_fps;
  n_total ← positive "metadata.total_frames" n_total;
  n_size ← positive "metadata.processed_size" n_size;
  Ok {| fps := n_fps; total_frames := n_total; processed_size := n_size;
        original_bbox := bbox |}.

(** Modelled from the spec: [totalFrames] equals the length of the frame
    array. *)
Definition check_frame_count (raw : value) (md : Metadata) : Result (list value) :=
  v ← field "" "frames" raw;
  l ← as_array "frames" v;
  if PrimFloat.eqb (total_frames md) (index_number (length l)) then Ok l
  else fail ShapeMismatch "metadata.total_frames".

(** A connection is a pair of indices, each in [[0, top]]. *)
Definition connection (top : number) (p : string) (v : value) : Result (number * number) :=
  l ← as_array p v;
  match l with
  | [a; b] =>
      a ← as_number (at_index p 0) a;
      b ← as_number (at_index p 1) b;
      a ← within 0 top (at_index p 0) a;
      b ← within 0 top (at_index p 1) b;
      Ok (a, b)
  | _ => fail ShapeMismatch p
  end.

Definition names (n : nat) (p : string) (v : value) : Result (list string) :=
  l ← as_array p v;
  l ← has_length n p l;
  each (fun i => as_string (at_index p i)) 0 l.

(** Modelled from the spec: the skeleton check of the validator (shapes and
    index bounds: pose indices in [[0, 32]], hand indices in [[0, 20]], 33 pose
    names and 21 hand names). *)
Definition check_skeleton (raw : value) : Result Skeleton :=
  sk ← field "" "skeleton" raw;
  v_pose ← field "skeleton" "pose_connections" sk;
  v_hand ← field "skeleton" "hand_connections" sk;
  v_names ← field "skeleton" "landmark_names" sk;
  l_pose ← as_array "skeleton.pose_connections" v_pose;
  l_hand ← as_array "skeleton.hand_connections" v_hand;
  pc ← each (fun i => connection 32 (at_index "skeleton.pose_connections" i)) 0 l_pose;
  hc ← each (fun i => connection 20 (at_index "skeleton.hand_connections" i)) 0 l_hand;
  v_pn ← field "skeleton.landmark_names" "pose" v_names;
  v_hn ← field "skeleton.landmark_names" "hand" v_names;
  pn ← names 33 "skeleton.landmark_names.pose" v_pn;
  hn ← names 21 "skeleton.landmark_names.hand" v_hn;
  Ok {| pose_connections := pc; hand_connections := hc;
        pose_names := pn; hand_names := hn |}.

(** Modelled from the spec: each frame's index equals its position and its
    time does not go back.  [prev] is the time of the frame before. *)
Fixpoint check_sequence (i : nat) (prev : option number) (frs : list value)
    : Result (list (number * number)) :=
  match frs with
  | [] => Ok []
  | fr :: rest =>
      v_frame ← field (at_index "frames" i) "frame" fr;
      f ← as_number (dot (at_index "frames" i) "frame") v_frame;
      if negb (PrimFloat.eqb f (index_number i)) then
        fail NonMonotonicSequence (dot (at_index "frames" i) "frame")
      else
        v_time ← field (at_index "frames" i) "time" fr;
        t ← as_number (dot (at_index "frames" i) "time") v_time;
        if negb (match prev with Some p => PrimFloat.leb p t | None => true end) then
          fail NonMonotonicSequence (dot (at_index "frames" i) "time")
        else
          more ← check_sequence (S i) (Some t) rest;
          Ok ((f, t) :: more)
  end.

Definition point3 (p : string) (v : value) : Result Point3 :=
  l ← as_array p v;
  match l with
  | [x; y; z] =>
      x ← as_number p x; y ← as_number p y; z ← as_number p z;
      Ok (x, y, z)
  | _ => fail ShapeMismatch p
  end.

Definition point4 (p : string) (v : value) : Result Point4 :=
  l ← as_array p v;
  match l with
  | [x; y; z; w] =>
      x ← as_number p x; y ← as_number p y; z ← as_number p z; w ← as_number p w;
      Ok (x, y, z, w)
  | _ => fail ShapeMismatch p
  end.

(** A landmark channel that is present: exactly [n] points. *)
Definition channel {A : Type} (point : string -> value -> Result A) (n : nat)
    (p : string) (v : value) : Result (list A) :=
  l ← as_array p v;
  l ← has_length n p l;
  each (fun j => point (at_index p j)) 0 l.

Definition hand (p : string) (v : value) : Result HandData :=
  v_lm ← field p "landmarks" v;
  v_side ← field p "handedness" v;
  lm ← channel point3 21 (dot p "landmarks") v_lm;
  side ← as_string (dot p "handedness") v_side;
  Ok {| hand_landmarks := lm; handedness := side |}.

(** The landmark shapes of the frame at position [i]: 33 pose points, 33
    world-pose points, 21 points per hand, each channel only when present. *)
Definition frame_shapes (i : nat) (fr : value) : Result FrameLandmarks :=
  let p := dot (at_index "frames" i) "landmarks" in
  lm ← field (at_index "frames" i) "landmarks" fr;
  ps ← optional (channel point3 33 (dot p "pose")) (opt_get lm "pose");
  wp ← optional (channel point4 33 (dot p "world_pose")) (opt_get lm "world_pose");
  lh ← optional (hand (dot p "left_hand")) (opt_get lm "left_hand");
  rh ← optional (hand (dot p "right_hand")) (opt_get lm "right_hand");
  Ok {| pose := ps; world_pose := wp; left_hand := lh; right_hand := rh |}.

(** Modelled from the spec: each frame's landmark array lengths, when
    present. *)
Definition check_shapes (frs : list value) : Result (list FrameLandmarks) :=
  each frame_shapes 0 frs.

Definition visibility_in_range (p : string) (j : nat) (q : Point4) : Result Point4 :=
  let '(x, y, z, w) := q in
  w ← within 0 1 (at_index p j) w;
  Ok q.

Definition frame_ranges (i : nat) (lm : FrameLandmarks) : Result FrameLandmarks :=
  match world_pose lm with
  | Some wp =>
      _ ← each (visibility_in_range (dot (dot (at_index "frames" i) "landmarks") "world_pose"))
               0 wp;
      Ok lm
  | None => Ok lm
  end.

(** Modelled from the spec: numeric ranges (visibility in [[0, 1]]). *)
Definition check_ranges (lms : list FrameLandmarks) : Result (list FrameLandmarks) :=
  each frame_ranges 0 lms.

Definition build_frame (ft : number * number) (lm : FrameLandmarks) : AnimationFrame :=
  {| frame := fst ft; time := snd ft; landmarks := lm |}.

(** Modelled from the spec: [validate(raw) -> Result<AnimationData,
    ValidationError>] of the schema validator, whose code
    ([AnimationLoader.validateAnimationData]) is not among the sources.  The
    checks run in the order the design document lists them and stop at the
    first violation: metadata; frame count; skeleton; frame index and time
    sequence; landmark array lengths; numeric ranges. *)
Definition validate (raw : value) : Result AnimationData :=
  md ← check_metadata raw;
  frs ← check_frame_count raw md;
  sk ← check_skeleton raw;
  sq ← check_sequence 0 None frs;
  lms ← check_shapes frs;
  lms ← check_ranges lms;
  Ok {| metadata := md; skeleton := sk; frames := zip_with build_frame sq lms |}.

(** The boolean the API document declares:
    [validateAnimationData(data: any): data is AnimationData]. *)
Definition validateAnimationData (data : value) : bool :=
  match validate data with Ok _ => true | Err _ => false end.

(** The frames of a raw document, and what a claim about them looks at. *)
Definition raw_frames (raw : value) : list value :=
  match opt_get raw "frames" with VArr l => l | _ => [] end.

(** [fr.frame != i], for a frame field that is a number (or is not one). *)
Definition frame_is_not (i : nat) (fr : value) : bool :=
  match opt_get fr "frame" with
  | VNum n => negb (PrimFloat.eqb n (index_number i))
  | _ => true
  end.

(** The pose channel of a raw frame is an array of [n] entries. *)
Definition pose_has (n : nat) (fr : value) : bool :=
  match opt_get (opt_get fr "landmarks") "pose" with
  | VArr l => Nat.eqb (length l) n
  | _ => false
  end.

(** The raw document passes the checks that come before the frame sequence
    check, and [frs] is its frame array. *)
Definition passes_before_sequence (raw : value) (frs : list value) : Prop :=
  exists md sk,
    check_metadata raw = Ok md
    /\ check_frame_count raw md = Ok frs
    /\ check_skeleton raw = Ok sk.

Definition in_sequence (frs : list value) : Prop :=
  exists sq, check_sequence 0 None frs = Ok sq.

Definition well_shaped (i : nat) (frs : list value) : Prop :=
  exists lms, each frame_shapes i frs = Ok lms.

Definition rejected (r : Result AnimationData) : Prop :=
  exists e, r = Err e.

End SchemaValidator.

(* ===================================================================== *)
(** ** Concrete inputs the examples and counterexamples run on *)
(* ===================================================================== *)

Module Fixtures.
Import Js Async Polling.

(** A backend that answers every request with status 500 and the body
    [{ "error": 42 }]. *)
Definition numeric_error_backend : Backend :=
  fun _ => Rejected {| message := "Request failed with status code 500";
                       response := VObj [("data", VObj [("error", VNum 42)])] |}.

(** A backend that is not listening. *)
Definition unreachable_backend : Backend :=
  fun _ => Rejected {| message := "connect ECONNREFUSED 127.0.0.1:5000";
                       response := VUndefined |}.

(** A component whose upload returned the video id 7 and whose processing
    flag is up. *)
Definition uploaded : Component :=
  {| isPlaying := false;
     videoId := Some "7";
     processingResults := None;
     error := None;
     store := AppStore.setIsProcessing true AppStore.initialState |}.

Definition processing10 : Snapshot := {| status := "processing"; progress := 10 |}.
Definition processing60 : Snapshot := {| status := "processing"; progress := 60 |}.
Definition completed100 : Snapshot := {| status := "completed"; progress := 100 |}.
Definition failed30 : Snapshot := {| status := "error"; progress := 30 |}.

Definition someResults : ResultsData := {| results := VObj [("frames", VArr [])] |}.

(** [{ success: true, data }] arriving over IPC. *)
Definition ipc_ok {A : Type} (a : A) : Settled (VideoCaptureIpc.IpcResult A) :=
  Fulfilled (VideoCaptureIpc.IpcSuccess a).

(** A request that never reached the backend. *)
Definition networkError : JsError :=
  {| message := "Network Error"; response := VUndefined |}.

(** One timer tick of the HTTP version answered by a network failure. *)
Definition http_failed_poll (r : Run) : Run :=
  VideoCaptureHttp.step (VideoCaptureHttp.step r TimerFires)
    (StatusSettles (Rejected networkError) (Rejected networkError)).

(** One timer tick of the IPC version whose invocation rejects. *)
Definition ipc_rejected_poll (r : Run) : Run :=
  VideoCaptureIpc.step true (VideoCaptureIpc.step true r TimerFires)
    (StatusSettles (Rejected networkError) (Rejected networkError)).

(** One timer tick of the IPC version answered with
    [{ success: false, error }], which is what the main-process handler makes
    of a network failure. *)
Definition ipc_unsuccessful_poll (r : Run) : Run :=
  VideoCaptureIpc.step true (VideoCaptureIpc.step true r TimerFires)
    (StatusSettles (Fulfilled (VideoCaptureIpc.IpcFailure (Some "Network Error")))
                   (Rejected networkError)).

(** Animation documents in the shape of the design document's example, with
    four frames at 32 frames per second. *)
Definition landmark_value : value := VArr [VNum 0.5; VNum 0.25; VNum 0].

Definition pose_of (n : nat) : value := VArr (replicate n landmark_value).

Definition frame_value (index time : number) (pose : value) : value :=
  VObj [("frame", VNum index); ("time", VNum time);
        ("landmarks", VObj [("pose", pose); ("world_pose", VNull);
                            ("left_hand", VNull); ("right_hand", VNull)])].

Definition document (fps : number) (frames : list value) : value :=
  VObj [("metadata",
         VObj [("fps", VNum fps);
               ("total_frames", VNum (SchemaValidator.index_number (length frames)));
               ("processed_size", VNum 1920);
               ("original_bbox", VArr [VNum 0; VNum 0; VNum 1920; VNum 1080])]);
        ("skeleton",
         VObj [("pose_connections", VArr [VArr [VNum 0; VNum 1]]);
               ("hand_connections", VArr [VArr [VNum 0; VNum 1]]);
               ("landmark_names",
                VObj [("pose", VArr (replicate 33 (VStr "pose_landmark")));
                      ("hand", VArr (replicate 21 (VStr "hand_landmark")))])]);
        ("frames", VArr frames)].

Definition firstThree : list value :=
  [frame_value 0 0 (pose_of 33); frame_value 1 0.03125 (pose_of 33);
   frame_value 2 0.0625 (pose_of 33)].

Definition fourFrames : value :=
  document 32 (firstThree ++ [frame_value 3 0.09375 (pose_of 33)]).

(** [frames[3].frame] is 7. *)
Definition misnumbered : value :=
  document 32 (firstThree ++ [frame_value 7 0.09375 (pose_of 33)]).

(** The pose of [frames[3]] has 30 entries. *)
Definition shortPose : value :=
  document 32 (firstThree ++ [frame_value 3 0.09375 (pose_of 30)]).

(** Both: [frames[3].frame] is 7 and its pose has 30 entries. *)
Definition misnumberedShortPose : value :=
  document 32 (firstThree ++ [frame_value 7 0.09375 (pose_of 30)]).

(** [frames[3].frame] is 7, and [fps] is 0. *)
Definition misnumberedNoFps : value :=
  document 0 (firstThree ++ [frame_value 7 0.09375 (pose_of 33)]).

End Fixtures.

(* ===================================================================== *)
(** ** The remaining actions of the application store *)
(* ===================================================================== *)

Module AppStoreActions.
Import Js Async AppStore.

(** What the clock says when a session is created: [Date.now()], in
    milliseconds, and [new Date()]. *)
Record Clock : Type := {
  now : Z;
  date : number
}.

(** <<
    createSession: () => {
      const session: Session = { id: Date.now().toString(), timestamp: new Date() };
      set({ currentSession: session });
    }
    >> *)
Definition newSession (clock : Clock) : Session :=
  {| id := pretty (now clock); timestamp := date clock;
     session_videoPath := None; session_motionData := None;
     session_flowMetrics := None; analysis := None |}.

Definition createSession (clock : Clock) : AppState -> AppState :=
  set [currentSession_is (Some (newSession clock))].

(** [saveSession]: the session handed to [window.electronAPI.saveSession],
    if any.  The store is not changed. *)
Definition saveSession (electronAPI : bool) (s : AppState) : option Session :=
  match currentSession s with
  | Some session => if electronAPI then Some session else None
  | None => None
  end.

(** <<
    initializeApp: () => {
      const savedSettings = localStorage.getItem('taiChiFlowSettings');
      if (savedSettings) { set({ settings: JSON.parse(savedSettings) }); }
      get().createSession();
    }
    >>
    [saved] is what [localStorage] holds under the key and [parse] is
    [JSON.parse] on a string that holds a settings object; when it throws, the
    action throws and the store stays as it was. *)
Definition initializeApp (saved : option string)
    (parse : string -> Settled (gmap string value)) (clock : Clock)
    (s : AppState) : Settled AppState :=
  match saved with
  | Some text =>
      if String.eqb text "" then Fulfilled (createSession clock s)
      else
        parsed ← parse text;
        Fulfilled (createSession clock (set [settings_is parsed] s))
  | None => Fulfilled (createSession clock s)
  end.

(** <<
    resetApp: () => { set({ currentSession: null, ... }); get().createSession(); }
    >> *)
Definition resetApp (clock : Clock) (s : AppState) : AppState :=
  createSession clock (resetFields s).

(** Every action of the store, with what it reads from outside. *)
Inductive Action : Type :=
| SetBackendStatus (status : BackendStatus)
| CreateSession (clock : Clock)
| LoadSession (session : Session)
| SaveSession (electronAPI : bool)
| SetVideoPath (path : option string)
| SetIsProcessing (processing : bool)
| SetProcessingProgress (progress : number)
| SetMotionData (data : list value)
| SetCurrentFrame (frame : number)
| UpdateFlowMetrics (metrics : gmap string value)
| UpdateSettings (newSettings : gmap string value)
| InitializeApp (saved : option string)
    (parse : string -> Settled (gmap string value)) (clock : Clock)
| ResetApp (clock : Clock).

(** The store after an action; an action that throws leaves it as it was. *)
Definition dispatch (s : AppState) (a : Action) : AppState :=
  match a with
  | SetBackendStatus status => setBackendStatus status s
  | CreateSession clock => createSession clock s
  | LoadSession session => loadSession session s
  | SaveSession _ => s
  | SetVideoPath path => setVideoPath path s
  | SetIsProcessing processing => setIsProcessing processing s
  | SetProcessingProgress progress => setProcessingProgress progress s
  | SetMotionData data => setMotionData data s
  | SetCurrentFrame frame => setCurrentFrame frame s
  | UpdateFlowMetrics metrics => updateFlowMetrics metrics s
  | UpdateSettings newSettings => updateSettings newSettings s
  | InitializeApp saved parse clock =>
      match initializeApp saved parse clock s with
      | Fulfilled s' => s'
      | Rejected _ => s
      end
  | ResetApp clock => resetApp clock s
  end.

Definition changes_settings (a : Action) : bool :=
  match a with
  | UpdateSettings _ | InitializeApp _ _ _ => true
  | _ => false
  end.

End AppStoreActions.

(* ===================================================================== *)
(** ** VideoCapture over IPC: the event handlers *)
(* ===================================================================== *)

Module VideoCaptureIpcHandlers.
Import Js Async Polling VideoCaptureIpc.

(** [uploadResponse.data]: [{ video_id }]. *)
Record UploadData : Type := { video_id : string }.

(** What a handler asks of the outside, in order. *)
Inductive Call : Type :=
| SelectVideo
| OpenFileInput
| UploadVideo (videoPath : string)
| ProcessVideo (videoId : string).

Record Handled : Type := {
  after : Component;
  calls : list Call
}.

Definition setVideoId (v : option string) (c : Component) : Component :=
  {| isPlaying := isPlaying c; videoId := v;
     processingResults := processingResults c; error := error c; store := store c |}.

Definition setVideoPath (p : option string) : Component -> Component :=
  on_store (AppStore.setVideoPath p).

(** A string or [null] used as a condition. *)
Definition given (o : option string) : bool :=
  match o with
  | Some v => negb (String.eqb v "")
  | None => false
  end.

(** <<
    const handleFileSelect = async () => {
      if (window.electronAPI) {
        const path = await window.electronAPI.selectVideo();
        if (path) { setVideoPath(path); setVideoId(null);
                    setProcessingResults(null); setError(null); }
      } else if (fileInputRef.current) { fileInputRef.current.click(); }
    };
    >>
    [picked] is what the dialog resolves to, [fileInput] whether the hidden
    input is mounted. *)
Definition handleFileSelect (electronAPI fileInput : bool) (picked : option string)
    (c : Component) : Handled :=
  if electronAPI then
    if given picked then
      {| after := setError None (setProcessingResults None
                    (setVideoId None (setVideoPath picked c)));
         calls := [SelectVideo] |}
    else {| after := c; calls := [SelectVideo] |}
  else if fileInput then {| after := c; calls := [OpenFileInput] |}
  else {| after := c; calls := [] |}.

(** [handleFileChange]: [url] is [URL.createObjectURL(file)] for the chosen
    file, [None] when the event carries no file. *)
Definition handleFileChange (url : option string) (c : Component) : Component :=
  match url with
  | Some u =>
      setProcessingResults None
        (setError (Some "File selection in web mode is for preview only. Please use the Electron app to process videos.")
           (setVideoPath (Some u) c))
  | None => c
  end.

(** The [catch] block of [handleProcess]:
    [setError(err.message || 'Failed to process video'); setIsProcessing(false)]. *)
Definition process_failed (message : string) (c : Component) : Component :=
  setIsProcessing false
    (setError (Some (or_message (Some message) "Failed to process video")) c).

(** <<
    const handleProcess = async () => {
      if (!videoPath) { setError('Please select a video file first'); return; }
      if (!window.electronAPI) { setError('Backend communication is ...'); return; }
      setIsProcessing(true); setProcessingProgress(0); setError(null);
      try {
        const uploadResponse = await window.electronAPI.uploadVideo(videoPath);
        if (uploadResponse.success) {
          const newVideoId = uploadResponse.data.video_id;
          setVideoId(newVideoId);
          const processResponse = await window.electronAPI.processVideo(newVideoId);
          if (!processResponse.success)
            throw new Error(processResponse.error || 'Failed to start processing');
        } else {
          throw new Error(uploadResponse.error || 'Failed to upload video');
        }
      } catch (err) { setError(err.message || ...); setIsProcessing(false); }
    };
    >> *)
Definition handleProcess (electronAPI : bool)
    (upload : Settled (IpcResult UploadData))
    (process : string -> Settled (IpcResult unit))
    (c : Component) : Handled :=
  if negb (given (AppStore.videoPath (store c))) then
    {| after := setError (Some "Please select a video file first") c; calls := [] |}
  else if negb electronAPI then
    {| after := setError (Some "Backend communication is only available in the Electron app.") c;
       calls := [] |}
  else
    let path := default "" (AppStore.videoPath (store c)) in
    let c := setError None (setProcessingProgress 0 (setIsProcessing true c)) in
    match upload with
    | Fulfilled (IpcSuccess d) =>
        let c := setVideoId (Some (video_id d)) c in
        let sent := [UploadVideo path; ProcessVideo (video_id d)] in
        match process (video_id d) with
        | Fulfilled (IpcSuccess _) => {| after := c; calls := sent |}
        | Fulfilled (IpcFailure e) =>
            {| after := process_failed (or_message e "Failed to start processing") c;
               calls := sent |}
        | Rejected err => {| after := process_failed (message err) c; calls := sent |}
        end
    | Fulfilled (IpcFailure e) =>
        {| after := process_failed (or_message e "Failed to upload video") c;
           calls := [UploadVideo path] |}
    | Rejected err =>
        {| after := process_failed (message err) c; calls := [UploadVideo path] |}
    end.

(** [handleProcess] with what happens to the component while it awaits.  An
    [await] lets other callbacks run: the polling effect, which
    [setIsProcessing(true)] arms when a video id is held, and other handlers.
    [during_upload] and [during_process] are what those do to the component
    while the upload and the process request are pending.  After an [await]
    the handler reads nothing of the component and only calls setters, so it
    acts on the component as it then is. *)
Definition handleProcess_amid (electronAPI : bool)
    (upload : Settled (IpcResult UploadData))
    (process : string -> Settled (IpcResult unit))
    (during_upload during_process : Component -> Component)
    (c : Component) : Handled :=
  if negb (given (AppStore.videoPath (store c))) then
    {| after := setError (Some "Please select a video file first") c; calls := [] |}
  else if negb electronAPI then
    {| after := setError (Some "Backend communication is only available in the Electron app.") c;
       calls := [] |}
  else
    let path := default "" (AppStore.videoPath (store c)) in
    let c := during_upload
               (setError None (setProcessingProgress 0 (setIsProcessing true c))) in
    match upload with
    | Fulfilled (IpcSuccess d) =>
        let c := during_process (setVideoId (Some (video_id d)) c) in
        let sent := [UploadVideo path; ProcessVideo (video_id d)] in
        match process (video_id d) with
        | Fulfilled (IpcSuccess _) => {| after := c; calls := sent |}
        | Fulfilled (IpcFailure e) =>
            {| after := process_failed (or_message e "Failed to start processing") c;
               calls := sent |}
        | Rejected err => {| after := process_failed (message err) c; calls := sent |}
        end
    | Fulfilled (IpcFailure e) =>
        {| after := process_failed (or_message e "Failed to upload video") c;
           calls := [UploadVideo path] |}
    | Rejected err =>
        {| after := process_failed (message err) c; calls := [UploadVideo path] |}
    end.

(** The guards of [handleProcess] let it through. *)
Definition ready (electronAPI : bool) (c : Component) : bool :=
  given (AppStore.videoPath (store c)) && electronAPI.

(** Both requests of [handleProcess] were answered with success. *)
Definition succeeded (upload : Settled (IpcResult UploadData))
    (process : string -> Settled (IpcResult unit)) : bool :=
  match upload with
  | Fulfilled (IpcSuccess d) =>
      match process (video_id d) with
      | Fulfilled (IpcSuccess _) => true
      | _ => false
      end
  | _ => false
  end.

Definition uploaded_id (upload : Settled (IpcResult UploadData)) : option string :=
  match upload with
  | Fulfilled (IpcSuccess d) => Some (video_id d)
  | _ => None
  end.

Definition shows_error (c : Component) : bool :=
  match error c with Some _ => true | None => false end.

(** Whether the polling effect sets its interval on this component. *)
Definition polls (electronAPI : bool) (c : Component) : bool :=
  interval (startPolling electronAPI c).

End VideoCaptureIpcHandlers.

(* ===================================================================== *)
(** ** VideoCapture over HTTP: the event handlers *)
(* ===================================================================== *)

Module VideoCaptureHttpHandlers.
Import Js Async Polling.

Record UploadData : Type := { video_id : string }.

(** The [File] the hidden input hands over. *)
Record File : Type := { name : string }.

Inductive Call : Type :=
| SelectVideo
| OpenFileInput
| UploadVideo (file : File)
| ProcessVideo (videoId : string).

(** The component's state and the store fields it uses.  [error] holds
    whatever [setError] was given: [null], a text of the component, or the
    [error] field of a server's answer. *)
Record Capture : Type := {
  videoFile : option File;
  videoPath : option string;
  videoId : option string;
  isProcessing : bool;
  processingProgress : number;
  processingResults : option value;
  error : value
}.

Record Handled : Type := {
  after : Capture;
  calls : list Call
}.

Definition initialCapture : Capture :=
  {| videoFile := None; videoPath := None; videoId := None; isProcessing := false;
     processingProgress := 0; processingResults := None; error := VNull |}.

Definition given (o : option string) : bool :=
  match o with
  | Some v => negb (String.eqb v "")
  | None => false
  end.

Definition held (o : option File) : bool :=
  match o with Some _ => true | None => false end.

(** <<
    const handleFileSelect = async () => {
      if (window.electronAPI) {
        const path = await window.electronAPI.selectVideo();
        if (path) { setVideoPath(path); }
      } else if (fileInputRef.current) { fileInputRef.current.click(); }
    };
    >> *)
Definition handleFileSelect (electronAPI fileInput : bool) (picked : option string)
    (st : Capture) : Handled :=
  if electronAPI then
    if given picked then
      {| after := {| videoFile := videoFile st; videoPath := picked; videoId := videoId st;
                     isProcessing := isProcessing st;
                     processingProgress := processingProgress st;
                     processingResults := processingResults st; error := error st |};
         calls := [SelectVideo] |}
    else {| after := st; calls := [SelectVideo] |}
  else if fileInput then {| after := st; calls := [OpenFileInput] |}
  else {| after := st; calls := [] |}.

(** <<
    const file = event.target.files?.[0];
    if (file) { const url = URL.createObjectURL(file);
                setVideoPath(url); setVideoFile(file);
                setError(null); setProcessingResults(null); }
    >> *)
Definition handleFileChange (chosen : option (File * string)) (st : Capture) : Capture :=
  match chosen with
  | Some (file, url) =>
      {| videoFile := Some file; videoPath := Some url; videoId := videoId st;
         isProcessing := isProcessing st; processingProgress := processingProgress st;
         processingResults := None; error := VNull |}
  | None => st
  end.

(** The [catch] block of [handleProcess]:
    [setError(err.response?.data?.error || 'Failed to process video');
     setIsProcessing(false)]. *)
Definition process_failed (err : JsError) (st : Capture) : Capture :=
  {| videoFile := videoFile st; videoPath := videoPath st; videoId := videoId st;
     isProcessing := false; processingProgress := processingProgress st;
     processingResults := processingResults st;
     error := or_else (opt_get (opt_get (response err) "data") "error")
                      (VStr "Failed to process video") |}.

(** [if (uploadVideoId) { await axios.post(`.../video/process/${uploadVideoId}`); }] *)
Definition start_processing (process : string -> Settled unit)
    (uploadVideoId : option string) (sent : list Call) (st : Capture) : Handled :=
  if given uploadVideoId then
    let id := default "" uploadVideoId in
    match process id with
    | Fulfilled _ => {| after := st; calls := sent ++ [ProcessVideo id] |}
    | Rejected err => {| after := process_failed err st; calls := sent ++ [ProcessVideo id] |}
    end
  else {| after := st; calls := sent |}.

(** <<
    const handleProcess = async () => {
      if (!videoFile && !videoPath) { setError('Please select ...'); return; }
      setIsProcessing(true); setProcessingProgress(0); setError(null);
      try {
        let uploadVideoId = videoId;
        if (videoFile && !uploadVideoId) {
          ... const uploadResponse = await axios.post(`${API_URL}/video/upload`, formData, ...);
          uploadVideoId = uploadResponse.data.video_id;
          setVideoId(uploadVideoId);
        }
        if (uploadVideoId) { await axios.post(`${API_URL}/video/process/${uploadVideoId}`); }
      } catch (err: any) { setError(err.response?.data?.error || ...); setIsProcessing(false); }
    };
    >> *)
Definition handleProcess (upload : File -> Settled UploadData)
    (process : string -> Settled unit) (st : Capture) : Handled :=
  if negb (held (videoFile st)) && negb (given (videoPath st)) then
    {| after := {| videoFile := videoFile st; videoPath := videoPath st;
                   videoId := videoId st; isProcessing := isProcessing st;
                   processingProgress := processingProgress st;
                   processingResults := processingResults st;
                   error := VStr "Please select a video file first" |};
       calls := [] |}
  else
    let st := {| videoFile := videoFile st; videoPath := videoPath st;
                 videoId := videoId st; isProcessing := true;
                 processingProgress := 0;
                 processingResults := processingResults st; error := VNull |} in
    match videoFile st with
    | Some file =>
        if negb (given (videoId st)) then
          match upload file with
          | Fulfilled d =>
              start_processing process (Some (video_id d)) [UploadVideo file]
                {| videoFile := videoFile st; videoPath := videoPath st;
                   videoId := Some (video_id d); isProcessing := isProcessing st;
                   processingProgress := processingProgress st;
                   processingResults := processingResults st; error := error st |}
          | Rejected err => {| after := process_failed err st; calls := [UploadVideo file] |}
          end
        else start_processing process (videoId st) [] st
    | None => start_processing process (videoId st) [] st
    end.

(** What the polling effect reads of the component: [videoId && isProcessing]. *)
Definition polls (st : Capture) : bool := given (videoId st) && isProcessing st.

Definition is_upload (c : Call) : bool :=
  match c with UploadVideo _ => true | _ => false end.

End VideoCaptureHttpHandlers.

(* ===================================================================== *)
(** ** Main process: waiting for the backend, and the other backend handlers *)
(* ===================================================================== *)

Module MainStartup.
Import Js Async.

(** <<
    const checkBackend = async () => {
      try {
        const response = await axios.get(`${BACKEND_URL}/health`, { timeout: 1000 });
        return response.status === 200;
      } catch (error) { return false; }
    };
    >>
    [answer] is how the health request settles: the status of the response, or
    a rejection. *)
Definition checkBackend (answer : Settled number) : bool :=
  match answer with
  | Fulfilled status => PrimFloat.eqb status 200
  | Rejected _ => false
  end.

Definition maxAttempts : nat := 30.

(** How [waitForBackend] ends: it told the window, it threw on
    [mainWindow.webContents] because the window was gone, or it gave up and
    showed the error box. *)
Inductive Outcome : Type :=
| BackendReady
| WindowGone
| GaveUp.

Record Waited : Type := {
  checks : nat;
  sleeps : nat;
  outcome : Outcome
}.

(** <<
    const waitForBackend = async () => {
      while (attempts < maxAttempts) {
        if (await checkBackend()) {
          console.log('Backend is ready');
          mainWindow.webContents.send('backend-ready');
          return;
        }
        await new Promise(resolve => setTimeout(resolve, 1000));
        attempts++;
      }
      console.error('Backend failed to start');
      dialog.showErrorBox('Backend Error', ...);
    };
    >>
    [health k] is how the health request of attempt [k] settles and [window k]
    whether [mainWindow] is set at that moment.  [None] means the fuel ran
    out before the loop ended. *)
Fixpoint waitLoop (fuel attempts : nat) (health : nat -> Settled number)
    (window : nat -> bool) : option Waited :=
  match fuel with
  | O => None
  | S fuel =>
      if attempts <? maxAttempts then
        if checkBackend (health attempts) then
          Some {| checks := 1; sleeps := 0;
                  outcome := if window attempts then BackendReady else WindowGone |}
        else
          w ← waitLoop fuel (S attempts) health window;
          Some {| checks := S (checks w); sleeps := S (sleeps w); outcome := outcome w |}
      else Some {| checks := 0; sleeps := 0; outcome := GaveUp |}
  end.

(** [let attempts = 0; ... waitForBackend();] *)
Definition waitForBackend (fuel : nat) : (nat -> Settled number) -> (nat -> bool) -> option Waited :=
  waitLoop fuel 0.

End MainStartup.

Module MainIpcOther.
Import Js Async MainIpc.








End MainIpcOther.

(* ===================================================================== *)
(** ** From the status handler to the polling callback *)
(* ===================================================================== *)

Module IpcBridge.
Import Js Async Polling VideoCaptureIpc.

(** [const { status, progress } = response.data], for a body that holds a
    status text and a progress number. *)
Definition as_snapshot (data : value) : option Snapshot :=
  match opt_get data "status", opt_get data "progress" with
  | VStr st, VNum p => Some {| status := st; progress := p |}
  | _, _ => None
  end.

Definition error_text (v : value) : option string :=
  match v with VStr e => Some e | _ => None end.

(** What the polling callback makes of the handler's answer, which the
    preload script passes through ([getVideoStatus: (videoId) =>
    ipcRenderer.invoke('get-video-status', videoId)]): [response.success]
    first, then [response.data].  [None] for a body that is not a snapshot. *)
Definition read_status (answer : value) : option (IpcResult Snapshot) :=
  if truthy (opt_get answer "success") then
    s ← as_snapshot (opt_get answer "data"); Some (IpcSuccess s)
  else Some (IpcFailure (error_text (opt_get answer "error"))).

(** [window.electronAPI.getVideoStatus(videoId)], as the callback reads it. *)
Definition getVideoStatus (axios : Backend) (videoId : string)
    : option (Settled (IpcResult Snapshot)) :=
  match MainIpc.get_video_status axios videoId with
  | Fulfilled answer => r ← read_status answer; Some (Fulfilled r)
  | Rejected e => Some (Rejected e)
  end.

(** An event of a trace is the observation of an [error] snapshot. *)
Definition is_error_snapshot (e : Event) : bool :=
  match e with Observed s => errored s | _ => false end.

(** What [handleProcess] makes of the upload handler's answer, which the
    preload script passes through ([uploadVideo: (videoPath) =>
    ipcRenderer.invoke('upload-video', videoPath)]): [uploadResponse.success]
    first, then [uploadResponse.data.video_id], else [uploadResponse.error].
    [None] for a body that holds no video id. *)
Definition read_upload (answer : value)
    : option (IpcResult VideoCaptureIpcHandlers.UploadData) :=
  if truthy (opt_get answer "success") then
    match opt_get (opt_get answer "data") "video_id" with
    | VStr v => Some (IpcSuccess {| VideoCaptureIpcHandlers.video_id := v |})
    | _ => None
    end
  else Some (IpcFailure (error_text (opt_get answer "error"))).

(** [window.electronAPI.uploadVideo(videoPath)], as [handleProcess] reads it. *)
Definition uploadVideo (node : MainIpc.Node) (axios : Backend) (videoPath : string)
    : option (Settled (IpcResult VideoCaptureIpcHandlers.UploadData)) :=
  match MainIpc.upload_video node axios videoPath with
  | Fulfilled answer => r ← read_upload answer; Some (Fulfilled r)
  | Rejected e => Some (Rejected e)
  end.

End IpcBridge.

(* ===================================================================== *)
(** ** electron/main.js: the backend process and the window *)
(* ===================================================================== *)

Module MainLifecycle.
Import Js AppStore.

(** [let mainWindow; let pythonProcess;] are [undefined] until they are
    assigned an object, and the handlers assign [null]. *)
Inductive Ref : Type :=
| Undefined
| Null
| Live.

(** [if (ref)] *)
Definition is_set (r : Ref) : bool :=
  match r with Live => true | _ => false end.

(** [ref === null] *)
Definition is_null (r : Ref) : bool :=
  match r with Null => true | _ => false end.

Record Main : Type := {
  mainWindow : Ref;
  pythonProcess : Ref
}.

(** What the main process is told: output and end of the backend process,
    and the events of the window and of the application. *)
Inductive Event : Type :=
| StdoutData (data : string)
| StderrData (data : string)
| ProcessError
| ProcessClose (exitCode : option number)
| WindowClosed
| WindowAllClosed
| Activate
| BeforeQuit
| Sigint.

(** What it does in answer. *)
Inductive Effect : Type :=
| Send (status : BackendStatus)
| Kill (signal : option string)
| Quit
| ErrorBox (title content : string)
| CreateWindow.

(** [if (mainWindow) { mainWindow.webContents.send('backend-status', status); }] *)
Definition send_status (m : Main) (st : BackendStatus) : list Effect :=
  if is_set (mainWindow m) then [Send st] else [].

(** [if (pythonProcess) { pythonProcess.kill(signal); }] *)
Definition kill_backend (m : Main) (signal : option string) : list Effect :=
  if is_set (pythonProcess m) then [Kill signal] else [].

(** <<
    pythonProcess.stdout.on('data', (data) => {
      if (mainWindow) mainWindow.webContents.send('backend-status',
                        { status: 'running', message: data.toString() }); });
    pythonProcess.stderr.on('data', (data) => {
      if (mainWindow) mainWindow.webContents.send('backend-status',
                        { status: 'error', message: data.toString() }); });
    pythonProcess.on('error', (error) => { dialog.showErrorBox(...); });
    pythonProcess.on('close', (code) => {
      pythonProcess = null;
      if (mainWindow) mainWindow.webContents.send('backend-status',
                        { status: 'stopped', code }); });
    mainWindow.on('closed', () => { mainWindow = null; });
    app.on('window-all-closed', () => {
      if (pythonProcess) pythonProcess.kill();
      if (process.platform !== 'darwin') app.quit(); });
    app.on('activate', () => { if (mainWindow === null) createWindow(); });
    app.on('before-quit', () => { if (pythonProcess) pythonProcess.kill('SIGTERM'); });
    process.on('SIGINT', () => {
      if (pythonProcess) pythonProcess.kill('SIGTERM');
      app.quit(); });
    >>
    [darwin] is [process.platform === 'darwin'].  An exit code of [null] (a
    process ended by a signal) is [None]. *)
Definition step (darwin : bool) (m : Main) (e : Event) : Main * list Effect :=
  match e with
  | StdoutData data =>
      (m, send_status m {| status := "running"; message := Some data; code := None |})
  | StderrData data =>
      (m, send_status m {| status := "error"; message := Some data; code := None |})
  | ProcessError =>
      (m, [ErrorBox "Backend Error"
             "Failed to start Python backend. Please check your installation."])
  | ProcessClose exitCode =>
      ({| mainWindow := mainWindow m; pythonProcess := Null |},
       send_status m {| status := "stopped"; message := None; code := exitCode |})
  | WindowClosed =>
      ({| mainWindow := Null; pythonProcess := pythonProcess m |}, [])
  | WindowAllClosed =>
      (m, kill_backend m None ++ (if darwin then [] else [Quit]))
  | Activate =>
      if is_null (mainWindow m)
      then ({| mainWindow := Live; pythonProcess := pythonProcess m |}, [CreateWindow])
      else (m, [])
  | BeforeQuit => (m, kill_backend m (Some "SIGTERM"))
  | Sigint => (m, kill_backend m (Some "SIGTERM") ++ [Quit])
  end.

(** The events handled one after the other, with all that was done. *)
Fixpoint run (darwin : bool) (m : Main) (events : list Event) : Main * list Effect :=
  match events with
  | [] => (m, [])
  | e :: events =>
      let '(m1, out1) := step darwin m e in
      let '(m2, out2) := run darwin m1 events in
      (m2, out1 ++ out2)
  end.

(** <<
    createWindow();
    await startPythonBackend();
    >>
    at [app.whenReady()]: the window is created, and [spawn] either returns
    the process or throws, which the [catch] answers with the error box and
    leaves [pythonProcess] as it was. *)
Definition whenReady (spawned : bool) (errorMessage : string) (m : Main)
    : Main * list Effect :=
  if spawned
  then ({| mainWindow := Live; pythonProcess := Live |}, [CreateWindow])
  else ({| mainWindow := Live; pythonProcess := pythonProcess m |},
        [CreateWindow;
         ErrorBox "Backend Error" ("Failed to start backend: " +:+ errorMessage)]).

(** The state the module starts in. *)
Definition initialMain : Main :=
  {| mainWindow := Undefined; pythonProcess := Undefined |}.

(** <<
    if (window.electronAPI) {
      window.electronAPI.onBackendStatus((status: any) => { setBackendStatus(status); });
    >>
    in [App]'s effect, with the preload script's
    [ipcRenderer.on('backend-status', (event, status) => callback(status))]:
    what a thing done by the main process changes in the renderer's store. *)
Definition renderer (electronAPI : bool) (s : AppState) (eff : Effect) : AppState :=
  match eff with
  | Send st => if electronAPI then setBackendStatus st s else s
  | _ => s
  end.


Definition is_kill (eff : Effect) : bool :=
  match eff with Kill _ => true | _ => false end.

Definition is_send (eff : Effect) : bool :=
  match eff with Send _ => true | _ => false end.

End MainLifecycle.

(* ===================================================================== *)
(** ** Theorems *)
(* ===================================================================== *)

(* --------------------------------------------------------------------- *)
(** *** Binary64 facts the proofs use *)
(* --------------------------------------------------------------------- *)

Section FloatFacts.
Open Scope float_scope.

(** Rounding to nearest even does not look at the sign. *)
Lemma binary_round_aux_negb prec emax s m e l :
  binary_round_aux prec emax (negb s) m e l
  = SFopp (binary_round_aux prec emax s m e l).
Proof.
  unfold binary_round_aux.
  destruct (shr_fexp prec emax m e l) as [mrs' e'].
  destruct (shr_fexp prec emax _ e' loc_Exact) as [mrs'' e''].
  destruct (shr_m mrs''); simpl; try reflexivity.
  destruct (e'' <=? emax - prec)%Z; reflexivity.
Qed.

Lemma float_mul_neg_one (a : float) : a * (-1) = - (a * 1).
Proof.
  apply Prim2SF_inj.
  rewrite opp_spec, !mul_spec.
  change (Prim2SF (-1)) with (S754_finite true 4503599627370496 (-52)).
  change (Prim2SF 1) with (S754_finite false 4503599627370496 (-52)).
  unfold SF64mul.
  destruct (Prim2SF a) as [s|s| |s m e]; simpl; try reflexivity;
    rewrite xorb_false_r, xorb_true_r; try reflexivity.
  apply binary_round_aux_negb.
Qed.

Lemma float_opp_involutive (a : float) : - - a = a.
Proof.
  apply Prim2SF_inj. rewrite !opp_spec.
  destruct (Prim2SF a) as [s|s| |s m e]; simpl;
    rewrite ?negb_involutive; reflexivity.
Qed.

End FloatFacts.

(** Two float literals that differ are told apart by their binary64
    decomposition. *)
Ltac float_neq H :=
  apply (f_equal Prim2SF) in H; vm_compute in H; discriminate H.

(* --------------------------------------------------------------------- *)
(** *** Coordinate transformer *)
(* --------------------------------------------------------------------- *)

Section CoordinateTransformerFacts.
Import Js CoordinateTransformer.
Open Scope float_scope.

(** The transform run on the centre of the image and on its corners. *)
Example toScene_centre :
  toScene (0.5, 0.5, 0) false = (0, -0, -0).
Proof. reflexivity. Qed.

Example toScene_top_left :
  toScene (0, 0, 0.25) false = (-1, 1, -0.5).
Proof. reflexivity. Qed.

Example toScene_top_left_mirrored :
  toScene (0, 0, 0.25) true = (1, 1, -0.5).
Proof. reflexivity. Qed.

(** C3. For every landmark [x, y, z] and every [mirrored], [toScene] returns
    exactly [x' = (x - 0.5) * 2 * (mirrored ? -1 : 1)], [y' = -(y - 0.5) * 2]
    and [z' = -z * 2], in binary64 arithmetic; these are the axis maps of the
    data-model document, with the x axis multiplied by -1 when mirrored.  The
    result is a function of the two arguments alone. *)
Theorem toScene_formula (x y z : number) (mirrored : bool) :
  toScene (x, y, z) mirrored
  = ((x - 0.5) * 2 * (if mirrored then -1 else 1), (- (y - 0.5)) * 2, (- z) * 2)
  /\ toScene (x, y, z) mirrored
     = (axisX x * (if mirrored then -1 else 1), axisY y, axisZ z)
  /\ toScene (x, y, z) true = (mirrorX (axisX x), axisY y, axisZ z).
Proof. repeat split. Qed.

(** C4, as stated, fails: at the origin of the capture space, transforming
    with mirroring and then without does not give the point back, and
    mirroring twice is not the unmirrored transform with x negated. *)
Lemma toScene_not_self_inverse :
  toScene (toScene (0, 0, 0) true) false <> (0, 0, 0)
  /\ toScene (toScene (0, 0, 0) true) true <> negX (toScene (0, 0, 0) false).
Proof.
  split; intros H; vm_compute in H.
  - assert (Hx : 1 = 0) by congruence. float_neq Hx.
  - assert (Hx : -1 = 1) by congruence. float_neq Hx.
Qed.

(** C4, amended. Mirroring is negation of the scene-space x: for every point,
    [toScene p true] is [toScene p false] with x negated, y and z do not
    depend on [mirrored], and negating x twice gives the scene point back. *)
Theorem toScene_mirror_negates_x (p : Landmark) (mirrored : bool) :
  toScene p true = negX (toScene p false)
  /\ snd (toScene p true) = snd (toScene p false)
  /\ snd (fst (toScene p true)) = snd (fst (toScene p false))
  /\ negX (negX (toScene p mirrored)) = toScene p mirrored.
Proof.
  destruct p as [[x y] z]. unfold toScene, negX. repeat split.
  - f_equal. f_equal. apply float_mul_neg_one.
  - rewrite float_opp_involutive. reflexivity.
Qed.

End CoordinateTransformerFacts.

(* --------------------------------------------------------------------- *)
(** *** Application store *)
(* --------------------------------------------------------------------- *)

Section AppStoreFacts.
Import Js AppStore.
Open Scope float_scope.

Lemma spread_lookup (a b : gmap string value) (k : string) :
  spread a b !! k = match b !! k with Some v => Some v | None => a !! k end.
Proof.
  unfold spread. destruct (b !! k) as [v|] eqn:Hb.
  - apply lookup_union_Some_l. exact Hb.
  - rewrite lookup_union_r; [reflexivity | exact Hb].
Qed.

(** C5, as stated, fails: with ten frames loaded, seeking to frame -1 stores
    -1 and seeking to frame 15 stores 15, not the clamped 0 and 9. *)
Lemma setCurrentFrame_does_not_clamp :
  totalFrames tenFrames = 10%nat
  /\ currentFrame (setCurrentFrame (-1) tenFrames) <> clamp 0 9 (-1)
  /\ currentFrame (setCurrentFrame 15 tenFrames) <> clamp 0 9 15.
Proof.
  split; [reflexivity |].
  split; intros H; vm_compute in H; float_neq H.
Qed.

(** C5, amended. For every requested frame [f], [setCurrentFrame] stores [f]
    itself, at once and in any state, and changes no other field of the store
    (so nothing that says whether playback or processing is going on). *)
Theorem setCurrentFrame_stores_frame (f : number) (s : AppState) :
  currentFrame (setCurrentFrame f s) = f
  /\ backendStatus (setCurrentFrame f s) = backendStatus s
  /\ currentSession (setCurrentFrame f s) = currentSession s
  /\ sessions (setCurrentFrame f s) = sessions s
  /\ videoPath (setCurrentFrame f s) = videoPath s
  /\ isProcessing (setCurrentFrame f s) = isProcessing s
  /\ processingProgress (setCurrentFrame f s) = processingProgress s
  /\ motionData (setCurrentFrame f s) = motionData s
  /\ flowMetrics (setCurrentFrame f s) = flowMetrics s
  /\ settings (setCurrentFrame f s) = settings s.
Proof. repeat split. Qed.

(** C6, as stated, fails: the speeds 0, -2 and NaN are invalid, and the store
    takes each of them in place of the speed 1 it held. *)
Lemma updateSettings_accepts_invalid_speed :
  settings initialState !! "playbackSpeed" = Some (VNum 1)
  /\ invalid_speed 0 = true
  /\ settings (updateSettings (speed_update 0) initialState) !! "playbackSpeed"
     <> settings initialState !! "playbackSpeed"
  /\ invalid_speed (-2) = true
  /\ settings (updateSettings (speed_update (-2)) initialState) !! "playbackSpeed"
     <> settings initialState !! "playbackSpeed"
  /\ invalid_speed nan = true
  /\ settings (updateSettings (speed_update nan) initialState) !! "playbackSpeed"
     <> settings initialState !! "playbackSpeed".
Proof.
  assert (Hinit : settings initialState !! "playbackSpeed" = Some (VNum 1))
    by (vm_compute; reflexivity).
  assert (Hnew : forall s, settings (updateSettings (speed_update s) initialState)
                           !! "playbackSpeed" = Some (VNum s)).
  { intros s. unfold updateSettings, set_with, set. simpl.
    rewrite spread_lookup. unfold speed_update.
    rewrite lookup_singleton_eq. reflexivity. }
  rewrite !Hnew, Hinit.
  repeat split; try reflexivity; intros H;
    assert (H' : forall a b : number, Some (VNum a) = Some (VNum b) -> a = b)
      by (intros a b E; congruence);
    apply H' in H; float_neq H.
Qed.

(** C6, amended. For every speed [s], NaN and [s <= 0] included,
    [updateSettings({ playbackSpeed: s })] stores [s] as the playback speed:
    no value is refused and no error is raised.  The other settings keep
    their values and no other field of the store changes: the backend status,
    the sessions, the video path, the processing flag and progress, the motion
    data, the current frame and the flow metrics are as before. *)
Theorem updateSettings_stores_any_speed (s : number) (st : AppState) :
  settings (updateSettings (speed_update s) st) !! "playbackSpeed" = Some (VNum s)
  /\ (forall k : string,
        settings (updateSettings (speed_update s) st) !! k
        = if decide (k = "playbackSpeed") then Some (VNum s) else settings st !! k)
  /\ backendStatus (updateSettings (speed_update s) st) = backendStatus st
  /\ currentSession (updateSettings (speed_update s) st) = currentSession st
  /\ sessions (updateSettings (speed_update s) st) = sessions st
  /\ videoPath (updateSettings (speed_update s) st) = videoPath st
  /\ isProcessing (updateSettings (speed_update s) st) = isProcessing st
  /\ processingProgress (updateSettings (speed_update s) st) = processingProgress st
  /\ motionData (updateSettings (speed_update s) st) = motionData st
  /\ currentFrame (updateSettings (speed_update s) st) = currentFrame st
  /\ flowMetrics (updateSettings (speed_update s) st) = flowMetrics st.
Proof.
  assert (H : forall k : string,
             settings (updateSettings (speed_update s) st) !! k
             = if decide (k = "playbackSpeed") then Some (VNum s) else settings st !! k).
  { intros k. unfold updateSettings, set_with, set. simpl.
    rewrite spread_lookup. unfold speed_update.
    destruct (decide (k = "playbackSpeed")) as [->|Hne].
    - rewrite lookup_singleton_eq. reflexivity.
    - rewrite lookup_singleton_ne by congruence. reflexivity. }
  split; [| split; [exact H | repeat split]].
  rewrite H. rewrite decide_True by reflexivity. reflexivity.
Qed.

(** C10. [updateSettings(s)] changes only the [settings] field of the store:
    a key of [s] takes the value [s] gives it, a key absent from [s] keeps
    its prior value, and every other field is as before.  [updateFlowMetrics(m)]
    does the same to [flowMetrics], merging [m] over the prior metrics. *)
Theorem update_changes_only_its_field (part : gmap string value) (st : AppState) :
  (forall k : string,
     settings (updateSettings part st) !! k
     = match part !! k with Some v => Some v | None => settings st !! k end)
  /\ backendStatus (updateSettings part st) = backendStatus st
  /\ currentSession (updateSettings part st) = currentSession st
  /\ sessions (updateSettings part st) = sessions st
  /\ videoPath (updateSettings part st) = videoPath st
  /\ isProcessing (updateSettings part st) = isProcessing st
  /\ processingProgress (updateSettings part st) = processingProgress st
  /\ motionData (updateSettings part st) = motionData st
  /\ currentFrame (updateSettings part st) = currentFrame st
  /\ flowMetrics (updateSettings part st) = flowMetrics st
  /\ (forall k : string,
        flowMetrics (updateFlowMetrics part st) !! k
        = match part !! k with Some v => Some v | None => flowMetrics st !! k end)
  /\ backendStatus (updateFlowMetrics part st) = backendStatus st
  /\ currentSession (updateFlowMetrics part st) = currentSession st
  /\ sessions (updateFlowMetrics part st) = sessions st
  /\ videoPath (updateFlowMetrics part st) = videoPath st
  /\ isProcessing (updateFlowMetrics part st) = isProcessing st
  /\ processingProgress (updateFlowMetrics part st) = processingProgress st
  /\ motionData (updateFlowMetrics part st) = motionData st
  /\ currentFrame (updateFlowMetrics part st) = currentFrame st
  /\ settings (updateFlowMetrics part st) = settings st.
Proof.
  repeat split; intros k; simpl; apply spread_lookup.
Qed.

(** The merge on the initial settings: switching the theme keeps the speed. *)
Example updateSettings_theme :
  let st := updateSettings {[ "theme" := VStr "light" ]} initialState in
  settings st !! "theme" = Some (VStr "light")
  /\ settings st !! "playbackSpeed" = Some (VNum 1).
Proof. split; vm_compute; reflexivity. Qed.

End AppStoreFacts.

(* --------------------------------------------------------------------- *)
(** *** Main-process IPC handlers *)
(* --------------------------------------------------------------------- *)

Section MainIpcFacts.
Import Js Async MainIpc Fixtures.

Example get_video_status_unreachable :
  get_video_status unreachable_backend "7"
  = Fulfilled (VObj [("success", VBool false);
                     ("error", VStr "connect ECONNREFUSED 127.0.0.1:5000")]).
Proof. reflexivity. Qed.

Lemma failure_error (error : JsError) :
  failure error
  = VObj [("success", VBool false);
          ("error", if truthy (payload_error error) then payload_error error
                    else VStr (message error))].
Proof. reflexivity. Qed.


(** Were [axios] bound to the library, the [error] of a failure would be
    whatever the backend's error body carries in its [error] field: a number
    there comes through as a number. *)
Example bound_axios_forwards_error_field :
  get_video_status numeric_error_backend "7"
  = Fulfilled (VObj [("success", VBool false); ("error", VNum 42)]).
Proof. reflexivity. Qed.

Lemma handler_outcome (body : Settled AxiosResponse) :
  try_catch (response ← body; mret (success response))
            (fun error => Fulfilled (failure error))
  = match body with
    | Fulfilled response => Fulfilled (success response)
    | Rejected error => Fulfilled (failure error)
    end.
Proof. destruct body; reflexivity. Qed.

(** C9. Each of the four job-lifecycle handlers resolves and never rejects,
    for every input and whatever Node and the backend do.  In main.js as it is
    [axios] is not bound, so every handler lands in its [catch] with an error
    that has no [response]: [process-video], [get-video-status] and
    [get-video-results] resolve to
    [{ success: false, error: 'axios is not defined' }], and [upload-video] to
    [{ success: false, error }] whose [error] is the message of what
    [require('form-data')] or [fs.createReadStream] threw, and
    'axios is not defined' when neither threw; [error] is a string in every
    case.  The shape follows the outcome for whatever [axios] is bound to:
    [{ success: true, data: response.data }] when the request is fulfilled,
    [{ success: false, error }] built from the caught error when it is
    rejected. *)
Theorem handlers_always_resolve (node : Node) (arg : string) :
  upload_video node axios arg
  = Fulfilled (failed match require_form_data node with
                      | Throws m => m
                      | Returns _ =>
                          match createReadStream node arg with
                          | Throws m => m
                          | Returns _ => "axios is not defined"
                          end
                      end)
  /\ process_video axios arg = Fulfilled (failed "axios is not defined")
  /\ get_video_status axios arg = Fulfilled (failed "axios is not defined")
  /\ get_video_results axios arg = Fulfilled (failed "axios is not defined")
  /\ (forall msg, is_failure_with_string (failed msg)
                  /\ opt_get (failed msg) "success" = VBool false
                  /\ opt_get (failed msg) "error" = VStr msg)
  /\ (forall bound : Backend,
        upload_video node bound arg
        = match require_form_data node with
          | Throws m => Fulfilled (failed m)
          | Returns _ =>
              match createReadStream node arg with
              | Throws m => Fulfilled (failed m)
              | Returns stream =>
                  match bound {| method := POST;
                                 url := BACKEND_URL +:+ "/video/upload";
                                 body := VObj [("video", stream)] |} with
                  | Fulfilled response => Fulfilled (success response)
                  | Rejected error => Fulfilled (failure error)
                  end
              end
          end
        /\ process_video bound arg
           = match bound {| method := POST;
                            url := BACKEND_URL +:+ "/video/process/" +:+ arg;
                            body := VUndefined |} with
             | Fulfilled response => Fulfilled (success response)
             | Rejected error => Fulfilled (failure error)
             end
        /\ get_video_status bound arg
           = match bound {| method := GET;
                            url := BACKEND_URL +:+ "/video/status/" +:+ arg;
                            body := VUndefined |} with
             | Fulfilled response => Fulfilled (success response)
             | Rejected error => Fulfilled (failure error)
             end
        /\ get_video_results bound arg
           = match bound {| method := GET;
                            url := BACKEND_URL +:+ "/video/results/" +:+ arg;
                            body := VUndefined |} with
             | Fulfilled response => Fulfilled (success response)
             | Rejected error => Fulfilled (failure error)
             end)
  /\ (forall response, is_success (success response))
  /\ (forall error,
        is_failure (failure error)
        /\ failure error
           = VObj [("success", VBool false);
                   ("error", if truthy (payload_error error) then payload_error error
                             else VStr (message error))]
        /\ (if truthy (payload_error error) then is_string (payload_error error) else true)
           = is_string (opt_get (failure error) "error")).
Proof.
  split; [| split; [| split; [| split; [| split; [| split; [| split]]]]]].
  - unfold upload_video.
    destruct (require_form_data node) as [[]|m]; [| reflexivity].
    destruct (createReadStream node arg) as [stream|m]; reflexivity.
  - reflexivity.
  - reflexivity.
  - reflexivity.
  - intros msg. split; [eexists; reflexivity | split; reflexivity].
  - intros bound. split; [| split; [| split]]; try apply handler_outcome.
    unfold upload_video.
    destruct (require_form_data node) as [[]|m]; [| reflexivity].
    destruct (createReadStream node arg) as [stream|m]; [| reflexivity].
    apply handler_outcome.
  - intros response. eexists. reflexivity.
  - intros error. split; [eexists; reflexivity | split; [reflexivity |]].
    unfold failure, or_else. fold (payload_error error).
    destruct (truthy (payload_error error)); reflexivity.
Qed.

End MainIpcFacts.

(* --------------------------------------------------------------------- *)
(** *** Traces of a polling run *)
(* --------------------------------------------------------------------- *)

Section TraceFacts.
Import Js Async Polling.

Lemma snapshots_app (a b : list Event) :
  snapshots (a ++ b) = snapshots a ++ snapshots b.
Proof. apply omap_app. Qed.

(** Where a list that ends in [e] can be cut. *)
Lemma snoc_eq_middle {A : Type} (l pre post : list A) (e x : A) :
  l ++ [e] = pre ++ x :: post ->
  (post = [] /\ l = pre /\ e = x)
  \/ (exists post', post = post' ++ [e] /\ l = pre ++ x :: post').
Proof.
  destruct post as [|y post' _] using rev_ind; intros H.
  - left. apply app_inj_tail in H as [-> ->]. auto.
  - right. exists post'.
    change (pre ++ x :: post' ++ [y]) with (pre ++ (x :: post') ++ [y]) in H.
    rewrite app_assoc in H. apply app_inj_tail in H as [-> ->]. auto.
Qed.

Lemma observed_in_snapshots (tr : list Event) (s : Snapshot) :
  s ∈ snapshots tr -> Observed s ∈ tr.
Proof.
  unfold snapshots. rewrite list_elem_of_omap.
  intros ([v|s'|v] & Hin & Heq); simplify_eq. exact Hin.
Qed.

Lemma Wf_stops_polling (vid : string) (tr : list Event) :
  Wf vid tr -> stops_polling_at_terminal tr.
Proof.
  induction 1 as [|tr Hwf IH Hnone|tr s Hwf IH Hs|tr s Hwf IH Hs];
    intros pre s0 post Heq Hterm.
  - destruct pre; discriminate.
  - apply snoc_eq_middle in Heq as [(_ & _ & ?)|(post' & -> & ->)]; [discriminate|].
    rewrite Forall_app, Forall_cons in Hnone.
    destruct Hnone as (_ & Hs0 & _). simpl in Hs0. congruence.
  - apply snoc_eq_middle in Heq as [(-> & _ & _)|(post' & -> & ->)]; [constructor|].
    apply Forall_app. split; [eapply IH; eauto | repeat constructor].
  - change (tr ++ [Observed s; ResultsRequest vid])
      with (tr ++ [Observed s] ++ [ResultsRequest vid]) in Heq.
    rewrite app_assoc in Heq.
    apply snoc_eq_middle in Heq as [(_ & _ & ?)|(post' & -> & Heq)]; [discriminate|].
    apply Forall_app. split; [| repeat constructor].
    apply snoc_eq_middle in Heq as [(-> & _ & _)|(post'' & -> & ->)]; [constructor|].
    apply Forall_app. split; [eapply IH; eauto | repeat constructor].
Qed.

Lemma Wf_no_fetch (vid : string) (tr : list Event) :
  Wf vid tr ->
  Forall (fun s => completed s = false) (snapshots tr) ->
  Forall (fun e => is_fetch e = false) tr.
Proof.
  induction 1 as [|tr Hwf IH Hnone|tr s Hwf IH Hs|tr s Hwf IH Hs];
    rewrite ?snapshots_app; simpl; rewrite ?app_nil_r; intros Hall.
  - constructor.
  - apply Forall_app. split; [auto | repeat constructor].
  - apply Forall_app in Hall as [Hall _].
    apply Forall_app. split; [auto | repeat constructor].
  - apply Forall_app in Hall as [_ Hall].
    apply Forall_cons in Hall as [Hall _]. congruence.
Qed.

Lemma Wf_fetches_once (vid : string) (tr : list Event) :
  Wf vid tr -> fetches_once_on_completion vid tr.
Proof.
  destruct 1 as [|tr Hwf Hnone|tr s Hwf Hs|tr s Hwf Hs];
    intros pre s0; rewrite ?snapshots_app; simpl; rewrite ?app_nil_r;
    intros Heq Hdone Hpre.
  - destruct pre; discriminate.
  - exfalso.
    assert (Hin : Observed s0 ∈ tr).
    { apply observed_in_snapshots. rewrite Heq. set_solver. }
    rewrite Forall_forall in Hnone. specialize (Hnone _ Hin).
    simpl in Hnone. unfold terminal in Hnone. rewrite Hdone in Hnone. discriminate.
  - apply app_inj_tail in Heq as [_ ->]. congruence.
  - apply app_inj_tail in Heq as [Hsnap ->].
    exists tr. split; [reflexivity |].
    apply (Wf_no_fetch vid); [assumption | rewrite Hsnap; assumption].
Qed.

End TraceFacts.

(* --------------------------------------------------------------------- *)
(** *** The polling runs keep their traces well formed *)
(* --------------------------------------------------------------------- *)

Section RunInvariants.
Import Js Async Polling.

Lemma nonterminal_snoc (tr : list Event) (s : Snapshot) :
  Forall (fun e => is_terminal_snapshot e = false) tr ->
  completed s = false -> errored s = false ->
  Forall (fun e => is_terminal_snapshot e = false) (tr ++ [Observed s]).
Proof.
  intros Htr Hc He. apply Forall_app. split; [exact Htr |].
  repeat constructor. simpl. unfold terminal. rewrite Hc, He. reflexivity.
Qed.

Lemma nonterminal_poll (tr : list Event) (v : string) :
  Forall (fun e => is_terminal_snapshot e = false) tr ->
  Forall (fun e => is_terminal_snapshot e = false) (tr ++ [PollRequest v]).
Proof.
  intros Htr. apply Forall_app. split; [exact Htr | repeat constructor].
Qed.

Lemma Wf_completed_snoc (vid : string) (tr : list Event) (s : Snapshot) :
  Wf vid tr -> completed s = true ->
  Wf vid ((tr ++ [Observed s]) ++ [ResultsRequest vid]).
Proof. intros Hwf Hs. rewrite <- app_assoc. apply Wf_completed; assumption. Qed.

Ltac inv_goals :=
  repeat split; simpl;
  eauto using nonterminal_poll, nonterminal_snoc, Wf_poll, Wf_observed,
    Wf_completed_snoc;
  try (intros; discriminate).

Lemma ipc_start_inv (electronAPI : bool) (c0 : Component) :
  Inv electronAPI c0 (VideoCaptureIpc.startPolling electronAPI c0).
Proof.
  repeat split; simpl; try constructor. intros H. congruence.
Qed.

Lemma ipc_step_inv (electronAPI : bool) (c0 : Component) (r : Run) e :
  Inv electronAPI c0 r -> Inv electronAPI c0 (VideoCaptureIpc.step electronAPI r e).
Proof.
  intros (Hvid & Hwf & Hint & Hapi).
  destruct r as [c i n tr]. simpl in *.
  destruct e as [|poll fetch]; simpl.
  - unfold VideoCaptureIpc.timerFires. simpl.
    destruct i; [| inv_goals].
    destruct electronAPI; simpl; [| inv_goals].
    unfold the_videoId. simpl. rewrite Hvid. inv_goals.
  - destruct n as [|n]; [inv_goals |].
    assert (Hon : electronAPI = true) by (apply Hapi; discriminate).
    subst electronAPI.
    unfold VideoCaptureIpc.statusSettled, request_settled. simpl.
    destruct poll as [[snap|err]|err]; simpl; [| inv_goals | inv_goals].
    destruct (completed snap) eqn:Hc; [| destruct (errored snap) eqn:He];
      [| inv_goals | inv_goals].
    unfold the_videoId. simpl. rewrite Hvid.
    destruct fetch as [[d|err]|err]; simpl; inv_goals.
Qed.

Lemma ipc_run_inv (electronAPI : bool) (c0 : Component) schedule :
  Inv electronAPI c0 (VideoCaptureIpc.run electronAPI c0 schedule).
Proof.
  unfold VideoCaptureIpc.run.
  induction schedule as [|e schedule IH] using rev_ind.
  - apply ipc_start_inv.
  - rewrite fold_left_app. apply ipc_step_inv. exact IH.
Qed.

Lemma http_start_inv (c0 : Component) :
  Inv true c0 (VideoCaptureHttp.startPolling c0).
Proof.
  repeat split; simpl; try constructor.
Qed.

Lemma http_step_inv (c0 : Component) (r : Run) e :
  Inv true c0 r -> Inv true c0 (VideoCaptureHttp.step r e).
Proof.
  intros (Hvid & Hwf & Hint & Hapi).
  destruct r as [c i n tr]. simpl in *.
  destruct e as [|poll fetch]; simpl.
  - unfold VideoCaptureHttp.timerFires. simpl.
    destruct i; [| inv_goals].
    unfold the_videoId. simpl. rewrite Hvid. inv_goals.
  - destruct n as [|n]; [inv_goals |].
    unfold VideoCaptureHttp.statusSettled, request_settled. simpl.
    destruct poll as [snap|err]; simpl; [| inv_goals].
    destruct (completed snap) eqn:Hc; [| destruct (errored snap) eqn:He];
      [| inv_goals | inv_goals].
    unfold the_videoId. simpl. rewrite Hvid.
    destruct fetch as [d|err]; simpl; inv_goals.
Qed.

Lemma http_run_inv (c0 : Component) schedule :
  Inv true c0 (VideoCaptureHttp.run c0 schedule).
Proof.
  unfold VideoCaptureHttp.run.
  induction schedule as [|e schedule IH] using rev_ind.
  - apply http_start_inv.
  - rewrite fold_left_app. apply http_step_inv. exact IH.
Qed.

End RunInvariants.

(* --------------------------------------------------------------------- *)
(** *** The status-polling loop *)
(* --------------------------------------------------------------------- *)

Section PollingFacts.
Import Js Async Polling Fixtures.

(** The job of the design document's test, polled over IPC: three ticks
    answered in turn, then two more ticks of the timer. *)
Example ipc_processing_processing_completed :
  let run := VideoCaptureIpc.run true uploaded
               (in_turn [(ipc_ok processing10, ipc_ok someResults);
                         (ipc_ok processing60, ipc_ok someResults);
                         (ipc_ok completed100, ipc_ok someResults)]
                ++ [TimerFires; TimerFires]) in
  trace run
  = [PollRequest "7"; Observed processing10;
     PollRequest "7"; Observed processing60;
     PollRequest "7"; Observed completed100; ResultsRequest "7"]
  /\ interval run = false
  /\ AppStore.isProcessing (store (component run)) = false
  /\ processingResults (component run) = Some (results someResults).
Proof. repeat split; vm_compute; reflexivity. Qed.

(** The same job polled over HTTP. *)
Example http_processing_processing_completed :
  let run := VideoCaptureHttp.run uploaded
               (in_turn [(Fulfilled processing10, Fulfilled someResults);
                         (Fulfilled processing60, Fulfilled someResults);
                         (Fulfilled completed100, Fulfilled someResults)]
                ++ [TimerFires; TimerFires]) in
  trace run
  = [PollRequest "7"; Observed processing10;
     PollRequest "7"; Observed processing60;
     PollRequest "7"; Observed completed100; ResultsRequest "7"]
  /\ interval run = false.
Proof. repeat split; vm_compute; reflexivity. Qed.

(** Two status requests that overlap: the second tick comes before the first
    answer, and both answers say [completed].  Each answer sends its own
    results request; no status request is sent after the first of them. *)
Example http_overlapping_polls :
  trace (VideoCaptureHttp.run uploaded
           [TimerFires; TimerFires;
            StatusSettles (Fulfilled completed100) (Fulfilled someResults);
            StatusSettles (Fulfilled completed100) (Fulfilled someResults);
            TimerFires])
  = [PollRequest "7"; PollRequest "7";
     Observed completed100; ResultsRequest "7";
     Observed completed100; ResultsRequest "7"].
Proof. vm_compute. reflexivity. Qed.

Lemma snapshots_nonterminal (tr : list Event) :
  Forall (fun e => is_terminal_snapshot e = false) tr ->
  Forall (fun s => terminal s = false) (snapshots tr).
Proof.
  induction 1 as [|e tr He Htr IH]; [constructor |].
  destruct e; simpl; auto.
Qed.

Lemma terminal_only_last_round (tr : list Event) (v : string) (s : Snapshot)
    (rest : list Event) :
  Forall (fun e => is_terminal_snapshot e = false) tr ->
  snapshots rest = [] ->
  terminal_only_last (tr ++ PollRequest v :: Observed s :: rest).
Proof.
  intros Htr Hrest pre s0. rewrite snapshots_app. simpl.
  fold (snapshots rest). rewrite Hrest.
  intros Heq. apply app_inj_tail in Heq as [<- _].
  apply snapshots_nonterminal. exact Htr.
Qed.

Lemma terminal_only_last_poll (tr : list Event) (v : string) :
  terminal_only_last tr -> terminal_only_last (tr ++ [PollRequest v]).
Proof.
  intros H pre s. rewrite snapshots_app. simpl. rewrite app_nil_r. apply H.
Qed.

Ltac round_goals :=
  split; [reflexivity |];
  split;
  [ simpl; try (intros; discriminate);
    eauto using nonterminal_poll, nonterminal_snoc
  | simpl;
    first [ assumption
          | apply terminal_only_last_poll; assumption
          | rewrite <- ?app_assoc; simpl;
            apply terminal_only_last_round; [assumption | reflexivity] ] ].

Lemma ipc_in_turn_inv electronAPI (c : Component) answers :
  between_rounds (VideoCaptureIpc.run electronAPI c (in_turn answers)).
Proof.
  unfold VideoCaptureIpc.run, in_turn.
  induction answers as [|[poll fetch] answers IH] using rev_ind.
  - repeat split; simpl; try constructor. intros pre s H. destruct pre; discriminate.
  - rewrite flat_map_app, fold_left_app. simpl.
    destruct (fold_left _ _ _) as [c' i n tr].
    destruct IH as (Hn & Hint & Hlast). simpl in *. subst n.
    unfold VideoCaptureIpc.timerFires. simpl.
    destruct i; [| round_goals].
    specialize (Hint eq_refl).
    destruct electronAPI; simpl; [| round_goals].
    unfold VideoCaptureIpc.statusSettled, request_settled. simpl.
    destruct poll as [[snap|err]|err]; simpl; [| round_goals | round_goals].
    destruct (completed snap) eqn:Hc; [| destruct (errored snap) eqn:He];
      [| round_goals | round_goals].
    destruct fetch as [[d|err]|err]; simpl; round_goals.
Qed.

Lemma http_in_turn_inv (c : Component) answers :
  between_rounds (VideoCaptureHttp.run c (in_turn answers)).
Proof.
  unfold VideoCaptureHttp.run, in_turn.
  induction answers as [|[poll fetch] answers IH] using rev_ind.
  - repeat split; simpl; try constructor. intros pre s H. destruct pre; discriminate.
  - rewrite flat_map_app, fold_left_app. simpl.
    destruct (fold_left _ _ _) as [c' i n tr].
    destruct IH as (Hn & Hint & Hlast). simpl in *. subst n.
    unfold VideoCaptureHttp.timerFires. simpl.
    destruct i; [| round_goals].
    specialize (Hint eq_refl).
    unfold VideoCaptureHttp.statusSettled, request_settled. simpl.
    destruct poll as [snap|err]; simpl; [| round_goals].
    destruct (completed snap) eqn:Hc; [| destruct (errored snap) eqn:He];
      [| round_goals | round_goals].
    destruct fetch as [d|err]; simpl; round_goals.
Qed.

Lemma single_terminal_fetches_once (vid : string) (tr : list Event) :
  terminal_only_last tr -> fetches_once_on_completion vid tr ->
  ends_in_one_fetch vid tr.
Proof.
  intros Hlast Hfetch pre s Hsnap Hdone.
  apply (Hfetch pre s Hsnap Hdone).
  eapply Forall_impl; [exact (Hlast pre s Hsnap) |].
  intros s' Hs'. unfold terminal in Hs'.
  destruct (completed s'); [discriminate | reflexivity].
Qed.

(** Once the interval is cleared, nothing a run does sends a status request. *)
Lemma ipc_cleared_stays_quiet electronAPI schedule (r : Run) :
  interval r = false ->
  exists extra,
    trace (fold_left (VideoCaptureIpc.step electronAPI) schedule r) = trace r ++ extra
    /\ Forall (fun e => is_poll e = false) extra.
Proof.
  revert r. induction schedule as [|e schedule IH]; intros r Hoff; simpl.
  - exists []. rewrite app_nil_r. split; [reflexivity | constructor].
  - assert (Hstep : interval (VideoCaptureIpc.step electronAPI r e) = false
                    /\ exists ex, trace (VideoCaptureIpc.step electronAPI r e) = trace r ++ ex
                                  /\ Forall (fun e => is_poll e = false) ex).
    { destruct r as [c i n tr]. simpl in Hoff. subst i.
      destruct e as [|poll fetch]; simpl.
      - split; [reflexivity |]. exists []. rewrite app_nil_r. split; [reflexivity | constructor].
      - destruct n as [|n]; simpl.
        + split; [reflexivity |]. exists []. rewrite app_nil_r. split; [reflexivity | constructor].
        + unfold VideoCaptureIpc.statusSettled, request_settled. simpl.
          destruct poll as [[snap|err]|err]; simpl;
            try (split; [reflexivity |]; exists []; rewrite app_nil_r;
                 split; [reflexivity | constructor]).
          destruct (completed snap); [| destruct (errored snap)]; simpl;
            try (split; [reflexivity |]; exists [Observed snap];
                 split; [reflexivity | repeat constructor]).
          destruct electronAPI; simpl;
            [| split; [reflexivity |]; exists [Observed snap];
               split; [reflexivity | repeat constructor]].
          destruct fetch as [[d|err]|err]; simpl;
            (split; [reflexivity |];
             exists [Observed snap; ResultsRequest (the_videoId
                       {| component := c; interval := false; inflight := n; trace := tr |})];
             split; [rewrite <- app_assoc; reflexivity | repeat constructor]). }
    destruct Hstep as (Hoff' & ex & Hex & Hnp).
    destruct (IH _ Hoff') as (extra & Hextra & Hnp').
    exists (ex ++ extra). rewrite Hextra, Hex, app_assoc.
    split; [reflexivity | apply Forall_app; auto].
Qed.

Lemma http_cleared_stays_quiet schedule (r : Run) :
  interval r = false ->
  exists extra,
    trace (fold_left VideoCaptureHttp.step schedule r) = trace r ++ extra
    /\ Forall (fun e => is_poll e = false) extra.
Proof.
  revert r. induction schedule as [|e schedule IH]; intros r Hoff; simpl.
  - exists []. rewrite app_nil_r. split; [reflexivity | constructor].
  - assert (Hstep : interval (VideoCaptureHttp.step r e) = false
                    /\ exists ex, trace (VideoCaptureHttp.step r e) = trace r ++ ex
                                  /\ Forall (fun e => is_poll e = false) ex).
    { destruct r as [c i n tr]. simpl in Hoff. subst i.
      destruct e as [|poll fetch]; simpl.
      - split; [reflexivity |]. exists []. rewrite app_nil_r. split; [reflexivity | constructor].
      - destruct n as [|n]; simpl.
        + split; [reflexivity |]. exists []. rewrite app_nil_r. split; [reflexivity | constructor].
        + unfold VideoCaptureHttp.statusSettled, request_settled. simpl.
          destruct poll as [snap|err]; simpl;
            try (split; [reflexivity |]; exists []; rewrite app_nil_r;
                 split; [reflexivity | constructor]).
          destruct (completed snap); [| destruct (errored snap)]; simpl;
            try (split; [reflexivity |]; exists [Observed snap];
                 split; [reflexivity | repeat constructor]).
          destruct fetch as [d|err]; simpl;
            (split; [reflexivity |];
             exists [Observed snap; ResultsRequest (the_videoId
                       {| component := c; interval := false; inflight := n; trace := tr |})];
             split; [rewrite <- app_assoc; reflexivity | repeat constructor]). }
    destruct Hstep as (Hoff' & ex & Hex & Hnp).
    destruct (IH _ Hoff') as (extra & Hextra & Hnp').
    exists (ex ++ extra). rewrite Hextra, Hex, app_assoc.
    split; [reflexivity | apply Forall_app; auto].
Qed.

Lemma rounds_no_fetch (vid : string) (snaps : list Snapshot) :
  filter (fun e => is_fetch e = true) (rounds vid snaps) = [].
Proof.
  induction snaps as [|s snaps IH]; [reflexivity |].
  change (rounds vid (s :: snaps))
    with (PollRequest vid :: Observed s :: rounds vid snaps).
  rewrite filter_cons_False by (simpl; discriminate).
  rewrite filter_cons_False by (simpl; discriminate).
  exact IH.
Qed.

Lemma one_fetch_after_rounds (vid : string) (snaps : list Snapshot) (s : Snapshot) :
  length (filter (fun e => is_fetch e = true)
            (rounds vid snaps ++ [PollRequest vid; Observed s; ResultsRequest vid]))
  = 1.
Proof. rewrite filter_app, rounds_no_fetch. reflexivity. Qed.

Lemma nonterminal_parts (s : Snapshot) :
  terminal s = false -> completed s = false /\ errored s = false.
Proof. unfold terminal. destruct (completed s), (errored s); auto. Qed.

(** Rounds answered in turn with snapshots that are not terminal leave the
    timer set and nothing in flight. *)
Lemma ipc_quiet_rounds
    (pre : list (Snapshot * Settled (VideoCaptureIpc.IpcResult ResultsData))) :
  Forall (fun a => terminal (fst a) = false) pre ->
  forall (c : Component) (tr : list Event),
  exists c',
    fold_left (VideoCaptureIpc.step true)
      (in_turn (map (fun a => (ipc_ok (fst a), snd a)) pre))
      {| component := c; interval := true; inflight := 0; trace := tr |}
    = {| component := c'; interval := true; inflight := 0;
         trace := tr ++ rounds (default "" (videoId c)) (map fst pre) |}
    /\ videoId c' = videoId c.
Proof.
  induction 1 as [|[s f] pre Hs Hpre IH]; intros c tr.
  - exists c. simpl. rewrite app_nil_r. split; reflexivity.
  - apply nonterminal_parts in Hs as [Hc He]. simpl in Hc, He.
    destruct (IH (setProcessingProgress (progress s) c)
                 ((tr ++ [PollRequest (default "" (videoId c))]) ++ [Observed s]))
      as (c' & Hrun & Hid).
    exists c'. split; [| exact Hid].
    change (in_turn (map (fun a => (ipc_ok (fst a), snd a)) ((s, f) :: pre)))
      with ([TimerFires; StatusSettles (ipc_ok s) f]
            ++ in_turn (map (fun a => (ipc_ok (fst a), snd a)) pre)).
    rewrite fold_left_app.
    replace (fold_left (VideoCaptureIpc.step true) [TimerFires; StatusSettles (ipc_ok s) f]
               {| component := c; interval := true; inflight := 0; trace := tr |})
      with {| component := setProcessingProgress (progress s) c; interval := true;
              inflight := 0;
              trace := (tr ++ [PollRequest (default "" (videoId c))]) ++ [Observed s] |}.
    + rewrite Hrun. simpl. rewrite <- !app_assoc. reflexivity.
    + simpl. unfold VideoCaptureIpc.timerFires, VideoCaptureIpc.statusSettled,
        request_settled, the_videoId. simpl. rewrite Hc, He. reflexivity.
Qed.

Lemma http_quiet_rounds (pre : list (Snapshot * Settled ResultsData)) :
  Forall (fun a => terminal (fst a) = false) pre ->
  forall (c : Component) (tr : list Event),
  exists c',
    fold_left VideoCaptureHttp.step
      (in_turn (map (fun a => (Fulfilled (fst a), snd a)) pre))
      {| component := c; interval := true; inflight := 0; trace := tr |}
    = {| component := c'; interval := true; inflight := 0;
         trace := tr ++ rounds (default "" (videoId c)) (map fst pre) |}
    /\ videoId c' = videoId c.
Proof.
  induction 1 as [|[s f] pre Hs Hpre IH]; intros c tr.
  - exists c. simpl. rewrite app_nil_r. split; reflexivity.
  - apply nonterminal_parts in Hs as [Hc He]. simpl in Hc, He.
    destruct (IH (setProcessingProgress (progress s) c)
                 ((tr ++ [PollRequest (default "" (videoId c))]) ++ [Observed s]))
      as (c' & Hrun & Hid).
    exists c'. split; [| exact Hid].
    change (in_turn (map (fun a => (Fulfilled (fst a), snd a)) ((s, f) :: pre)))
      with ([TimerFires; StatusSettles (Fulfilled s) f]
            ++ in_turn (map (fun a => (Fulfilled (fst a), snd a)) pre)).
    rewrite fold_left_app.
    replace (fold_left VideoCaptureHttp.step [TimerFires; StatusSettles (Fulfilled s) f]
               {| component := c; interval := true; inflight := 0; trace := tr |})
      with {| component := setProcessingProgress (progress s) c; interval := true;
              inflight := 0;
              trace := (tr ++ [PollRequest (default "" (videoId c))]) ++ [Observed s] |}.
    + rewrite Hrun. simpl. rewrite <- !app_assoc. reflexivity.
    + simpl. unfold VideoCaptureHttp.timerFires, VideoCaptureHttp.statusSettled,
        request_settled, the_videoId. simpl. rewrite Hc, He. reflexivity.
Qed.

(** With the timer cleared and nothing in flight, nothing happens any more. *)
Lemma ipc_idle electronAPI later (r : Run) :
  interval r = false -> inflight r = 0 ->
  fold_left (VideoCaptureIpc.step electronAPI) later r = r.
Proof.
  intros Hi Hn. induction later as [|e later IH]; [reflexivity |].
  simpl. replace (VideoCaptureIpc.step electronAPI r e) with r; [exact IH |].
  destruct e; simpl.
  - unfold VideoCaptureIpc.timerFires. rewrite Hi. reflexivity.
  - rewrite Hn. reflexivity.
Qed.

Lemma http_idle later (r : Run) :
  interval r = false -> inflight r = 0 ->
  fold_left VideoCaptureHttp.step later r = r.
Proof.
  intros Hi Hn. induction later as [|e later IH]; [reflexivity |].
  simpl. replace (VideoCaptureHttp.step r e) with r; [exact IH |].
  destruct e; simpl.
  - unfold VideoCaptureHttp.timerFires. rewrite Hi. reflexivity.
  - rewrite Hn. reflexivity.
Qed.

Lemma ipc_terminal_answer electronAPI (c : Component) (i : bool) (n : nat)
    (tr : list Event) (s : Snapshot) fetch :
  terminal s = true ->
  let r := VideoCaptureIpc.step electronAPI
             {| component := c; interval := i; inflight := S n; trace := tr |}
             (StatusSettles (ipc_ok s) fetch) in
  interval r = false
  /\ AppStore.isProcessing (store (component r)) = false
  /\ trace r = tr ++ Observed s
                  :: (if completed s && electronAPI
                      then [ResultsRequest (default "" (videoId c))] else []).
Proof.
  intros Hs. unfold terminal in Hs. simpl.
  unfold VideoCaptureIpc.statusSettled, request_settled. simpl.
  destruct (completed s); simpl.
  - destruct electronAPI; simpl; [| repeat split].
    destruct fetch as [[d|e]|e]; simpl; rewrite <- app_assoc; repeat split.
  - simpl in Hs. rewrite Hs. repeat split.
Qed.

Lemma http_terminal_answer (c : Component) (i : bool) (n : nat)
    (tr : list Event) (s : Snapshot) fetch :
  terminal s = true ->
  let r := VideoCaptureHttp.step
             {| component := c; interval := i; inflight := S n; trace := tr |}
             (StatusSettles (Fulfilled s) fetch) in
  interval r = false
  /\ AppStore.isProcessing (store (component r)) = false
  /\ trace r = tr ++ Observed s
                  :: (if completed s
                      then [ResultsRequest (default "" (videoId c))] else []).
Proof.
  intros Hs. unfold terminal in Hs. simpl.
  unfold VideoCaptureHttp.statusSettled, request_settled. simpl.
  destruct (completed s); simpl.
  - destruct fetch as [d|e]; simpl; rewrite <- app_assoc; repeat split.
  - simpl in Hs. rewrite Hs. repeat split.
Qed.

Lemma ipc_completed_in_turn electronAPI (c : Component)
    (pre : list (Snapshot * Settled (VideoCaptureIpc.IpcResult ResultsData)))
    (s : Snapshot) fetch :
  interval (VideoCaptureIpc.startPolling electronAPI c) = true ->
  Forall (fun a => terminal (fst a) = false) pre ->
  completed s = true ->
  let r := VideoCaptureIpc.run electronAPI c
             (in_turn (map (fun a => (ipc_ok (fst a), snd a)) pre
                       ++ [(ipc_ok s, fetch)])) in
  trace r = rounds (default "" (videoId c)) (map fst pre)
            ++ [PollRequest (default "" (videoId c)); Observed s;
                ResultsRequest (default "" (videoId c))]
  /\ interval r = false
  /\ inflight r = 0
  /\ AppStore.isProcessing (store (component r)) = false.
Proof.
  intros Harmed Hpre Hs.
  assert (Hapi : electronAPI = true).
  { unfold VideoCaptureIpc.startPolling in Harmed. simpl in Harmed.
    destruct electronAPI; [reflexivity |].
    rewrite andb_false_r in Harmed. discriminate. }
  subst electronAPI.
  unfold VideoCaptureIpc.run, VideoCaptureIpc.startPolling in *. simpl in Harmed.
  rewrite Harmed. unfold in_turn. rewrite flat_map_app, fold_left_app.
  destruct (ipc_quiet_rounds pre Hpre c []) as (c' & Hrun & Hid).
  unfold in_turn in Hrun. rewrite Hrun. simpl.
  unfold VideoCaptureIpc.timerFires, VideoCaptureIpc.statusSettled,
    request_settled, the_videoId. simpl. rewrite Hs, Hid.
  destruct fetch as [[d|e]|e]; simpl; rewrite <- !app_assoc; repeat split.
Qed.

Lemma http_completed_in_turn (c : Component)
    (pre : list (Snapshot * Settled ResultsData)) (s : Snapshot) fetch :
  interval (VideoCaptureHttp.startPolling c) = true ->
  Forall (fun a => terminal (fst a) = false) pre ->
  completed s = true ->
  let r := VideoCaptureHttp.run c
             (in_turn (map (fun a => (Fulfilled (fst a), snd a)) pre
                       ++ [(Fulfilled s, fetch)])) in
  trace r = rounds (default "" (videoId c)) (map fst pre)
            ++ [PollRequest (default "" (videoId c)); Observed s;
                ResultsRequest (default "" (videoId c))]
  /\ interval r = false
  /\ inflight r = 0
  /\ AppStore.isProcessing (store (component r)) = false.
Proof.
  intros Harmed Hpre Hs.
  unfold VideoCaptureHttp.run, VideoCaptureHttp.startPolling in *. simpl in Harmed.
  rewrite Harmed. unfold in_turn. rewrite flat_map_app, fold_left_app.
  destruct (http_quiet_rounds pre Hpre c []) as (c' & Hrun & Hid).
  unfold in_turn in Hrun. rewrite Hrun. simpl.
  unfold VideoCaptureHttp.timerFires, VideoCaptureHttp.statusSettled,
    request_settled, the_videoId. simpl. rewrite Hs, Hid.
  destruct fetch as [d|e]; simpl; rewrite <- !app_assoc; repeat split.
Qed.

(** C1, as stated, fails: over HTTP, two status requests in flight together,
    both answered [completed].  The snapshots end in [completed], and each
    answer sent its own results request, so the run holds two of them and the
    first is not the last event but one. *)
Lemma overlapping_polls_fetch_twice :
  let http := VideoCaptureHttp.run uploaded
                [TimerFires; TimerFires;
                 StatusSettles (Fulfilled completed100) (Fulfilled someResults);
                 StatusSettles (Fulfilled completed100) (Fulfilled someResults)] in
  trace http = [PollRequest "7"; PollRequest "7";
                Observed completed100; ResultsRequest "7";
                Observed completed100; ResultsRequest "7"]
  /\ snapshots (trace http) = [completed100; completed100]
  /\ length (filter (fun e => is_fetch e = true) (trace http)) = 2
  /\ ~ ends_in_one_fetch "7" (trace http).
Proof.
  intros http.
  assert (Hhttp : trace http = [PollRequest "7"; PollRequest "7";
                                Observed completed100; ResultsRequest "7";
                                Observed completed100; ResultsRequest "7"])
    by (vm_compute; reflexivity).
  split; [exact Hhttp |]. rewrite Hhttp.
  split; [reflexivity |]. split; [reflexivity |].
  intros H.
  destruct (H [completed100] completed100 eq_refl eq_refl) as (before & Heq & Hnone).
  change [PollRequest "7"; PollRequest "7"; Observed completed100;
          ResultsRequest "7"; Observed completed100; ResultsRequest "7"]
    with ([PollRequest "7"; PollRequest "7"; Observed completed100;
           ResultsRequest "7"] ++ [Observed completed100; ResultsRequest "7"])
    in Heq.
  apply app_inv_tail in Heq. subst before.
  rewrite !Forall_cons in Hnone. destruct Hnone as (_ & _ & _ & Hfetch & _).
  discriminate Hfetch.
Qed.

(** C1, amended. In both versions of the component, and for every order in
    which timer ticks and answers arrive: once a snapshot with status
    [completed] or [error] is observed, no further status request is sent.  A
    status answer with such a snapshot, whenever it arrives, clears the
    interval and lowers [isProcessing]; an [error] one is recorded alone and a
    [completed] one is followed at once by one results request; nothing later
    sends a status request.  When every status request is answered before the
    next tick, snapshots that are not terminal followed by a [completed] one
    give exactly the rounds of request and snapshot and then one results
    request at once after the completed snapshot: the run holds exactly one
    results request, and nothing that happens later sends anything.  There,
    whatever the answers, no snapshot before the last one is terminal, and
    snapshots that end in [completed] end the run's events in that snapshot
    and the one results request.  (When status requests overlap, each
    [completed] answer sends a results request of its own.) *)
Theorem polling_stops_and_fetches_once :
  (forall electronAPI c schedule,
     stops_polling_at_terminal (trace (VideoCaptureIpc.run electronAPI c schedule))
     /\ fetches_once_on_completion (default "" (videoId c))
          (trace (VideoCaptureIpc.run electronAPI c schedule)))
  /\ (forall c schedule,
        stops_polling_at_terminal (trace (VideoCaptureHttp.run c schedule))
        /\ fetches_once_on_completion (default "" (videoId c))
             (trace (VideoCaptureHttp.run c schedule)))
  /\ (forall electronAPI (c : Component) (i : bool) (n : nat) (tr : list Event)
             (s : Snapshot) fetch later,
        terminal s = true ->
        let r := VideoCaptureIpc.step electronAPI
                   {| component := c; interval := i; inflight := S n; trace := tr |}
                   (StatusSettles (ipc_ok s) fetch) in
        interval r = false
        /\ AppStore.isProcessing (store (component r)) = false
        /\ trace r = tr ++ Observed s
                        :: (if completed s && electronAPI
                            then [ResultsRequest (default "" (videoId c))] else [])
        /\ exists extra,
             trace (fold_left (VideoCaptureIpc.step electronAPI) later r)
             = trace r ++ extra
             /\ Forall (fun e => is_poll e = false) extra)
  /\ (forall (c : Component) (i : bool) (n : nat) (tr : list Event)
             (s : Snapshot) fetch later,
        terminal s = true ->
        let r := VideoCaptureHttp.step
                   {| component := c; interval := i; inflight := S n; trace := tr |}
                   (StatusSettles (Fulfilled s) fetch) in
        interval r = false
        /\ AppStore.isProcessing (store (component r)) = false
        /\ trace r = tr ++ Observed s
                        :: (if completed s
                            then [ResultsRequest (default "" (videoId c))] else [])
        /\ exists extra,
             trace (fold_left VideoCaptureHttp.step later r) = trace r ++ extra
             /\ Forall (fun e => is_poll e = false) extra)
  /\ (forall electronAPI (c : Component)
             (pre : list (Snapshot * Settled (VideoCaptureIpc.IpcResult ResultsData)))
             (s : Snapshot) fetch later,
        interval (VideoCaptureIpc.startPolling electronAPI c) = true ->
        Forall (fun a => terminal (fst a) = false) pre ->
        completed s = true ->
        let r := VideoCaptureIpc.run electronAPI c
                   (in_turn (map (fun a => (ipc_ok (fst a), snd a)) pre
                             ++ [(ipc_ok s, fetch)])) in
        trace r = rounds (default "" (videoId c)) (map fst pre)
                  ++ [PollRequest (default "" (videoId c)); Observed s;
                      ResultsRequest (default "" (videoId c))]
        /\ length (filter (fun e => is_fetch e = true) (trace r)) = 1
        /\ interval r = false
        /\ AppStore.isProcessing (store (component r)) = false
        /\ fold_left (VideoCaptureIpc.step electronAPI) later r = r)
  /\ (forall (c : Component) (pre : list (Snapshot * Settled ResultsData))
             (s : Snapshot) fetch later,
        interval (VideoCaptureHttp.startPolling c) = true ->
        Forall (fun a => terminal (fst a) = false) pre ->
        completed s = true ->
        let r := VideoCaptureHttp.run c
                   (in_turn (map (fun a => (Fulfilled (fst a), snd a)) pre
                             ++ [(Fulfilled s, fetch)])) in
        trace r = rounds (default "" (videoId c)) (map fst pre)
                  ++ [PollRequest (default "" (videoId c)); Observed s;
                      ResultsRequest (default "" (videoId c))]
        /\ length (filter (fun e => is_fetch e = true) (trace r)) = 1
        /\ interval r = false
        /\ AppStore.isProcessing (store (component r)) = false
        /\ fold_left VideoCaptureHttp.step later r = r)
  /\ (forall electronAPI c answers,
        terminal_only_last (trace (VideoCaptureIpc.run electronAPI c (in_turn answers)))
        /\ ends_in_one_fetch (default "" (videoId c))
             (trace (VideoCaptureIpc.run electronAPI c (in_turn answers))))
  /\ (forall c answers,
        terminal_only_last (trace (VideoCaptureHttp.run c (in_turn answers)))
        /\ ends_in_one_fetch (default "" (videoId c))
             (trace (VideoCaptureHttp.run c (in_turn answers)))).
Proof.
  split; [| split; [| split; [| split; [| split; [| split; [| split]]]]]].
  - intros electronAPI c schedule.
    destruct (ipc_run_inv electronAPI c schedule) as (_ & Hwf & _).
    split; [eapply Wf_stops_polling | apply Wf_fetches_once]; exact Hwf.
  - intros c schedule.
    destruct (http_run_inv c schedule) as (_ & Hwf & _).
    split; [eapply Wf_stops_polling | apply Wf_fetches_once]; exact Hwf.
  - intros electronAPI c i n tr s fetch later Hs r.
    destruct (ipc_terminal_answer electronAPI c i n tr s fetch Hs) as (Hi & Hp & Htr).
    split; [exact Hi | split; [exact Hp | split; [exact Htr |]]].
    apply ipc_cleared_stays_quiet. exact Hi.
  - intros c i n tr s fetch later Hs r.
    destruct (http_terminal_answer c i n tr s fetch Hs) as (Hi & Hp & Htr).
    split; [exact Hi | split; [exact Hp | split; [exact Htr |]]].
    apply http_cleared_stays_quiet. exact Hi.
  - intros electronAPI c pre s fetch later Harmed Hpre Hs r.
    destruct (ipc_completed_in_turn electronAPI c pre s fetch Harmed Hpre Hs)
      as (Htr & Hi & Hn & Hp).
    split; [exact Htr |].
    split; [unfold r; rewrite Htr; apply one_fetch_after_rounds |].
    split; [exact Hi | split; [exact Hp |]].
    apply ipc_idle; assumption.
  - intros c pre s fetch later Harmed Hpre Hs r.
    destruct (http_completed_in_turn c pre s fetch Harmed Hpre Hs)
      as (Htr & Hi & Hn & Hp).
    split; [exact Htr |].
    split; [unfold r; rewrite Htr; apply one_fetch_after_rounds |].
    split; [exact Hi | split; [exact Hp |]].
    apply http_idle; assumption.
  - intros electronAPI c answers.
    destruct (ipc_in_turn_inv electronAPI c answers) as (_ & _ & Hlast).
    split; [exact Hlast |].
    apply single_terminal_fetches_once; [exact Hlast |].
    destruct (ipc_run_inv electronAPI c (in_turn answers)) as (_ & Hwf & _).
    apply Wf_fetches_once. exact Hwf.
  - intros c answers.
    destruct (http_in_turn_inv c answers) as (_ & _ & Hlast).
    split; [exact Hlast |].
    apply single_terminal_fetches_once; [exact Hlast |].
    destruct (http_run_inv c (in_turn answers)) as (_ & Hwf & _).
    apply Wf_fetches_once. exact Hwf.
Qed.

(** The theorem at the design document's job, processing(10), processing(60),
    completed(100), polled over IPC and over HTTP with each request answered
    before the next tick: one results request, at once after the completed
    snapshot, and two more ticks of the timer send nothing. *)
Lemma polling_stops_and_fetches_once_witness :
  let ipc := VideoCaptureIpc.run true uploaded
               (in_turn [(ipc_ok processing10, ipc_ok someResults);
                         (ipc_ok processing60, ipc_ok someResults);
                         (ipc_ok completed100, ipc_ok someResults)]) in
  let http := VideoCaptureHttp.run uploaded
                (in_turn [(Fulfilled processing10, Fulfilled someResults);
                          (Fulfilled processing60, Fulfilled someResults);
                          (Fulfilled completed100, Fulfilled someResults)]) in
  (trace ipc = [PollRequest "7"; Observed processing10;
                PollRequest "7"; Observed processing60;
                PollRequest "7"; Observed completed100; ResultsRequest "7"]
   /\ length (filter (fun e => is_fetch e = true) (trace ipc)) = 1
   /\ interval ipc = false
   /\ AppStore.isProcessing (store (component ipc)) = false
   /\ fold_left (VideoCaptureIpc.step true) [TimerFires; TimerFires] ipc = ipc)
  /\ (trace http = [PollRequest "7"; Observed processing10;
                    PollRequest "7"; Observed processing60;
                    PollRequest "7"; Observed completed100; ResultsRequest "7"]
      /\ length (filter (fun e => is_fetch e = true) (trace http)) = 1
      /\ interval http = false
      /\ AppStore.isProcessing (store (component http)) = false
      /\ fold_left VideoCaptureHttp.step [TimerFires; TimerFires] http = http).
Proof.
  intros ipc http.
  destruct polling_stops_and_fetches_once as (_ & _ & _ & _ & Hipc & Hhttp & _).
  split.
  - apply (Hipc true uploaded
             [(processing10, ipc_ok someResults); (processing60, ipc_ok someResults)]
             completed100 (ipc_ok someResults) [TimerFires; TimerFires]).
    + reflexivity.
    + repeat constructor.
    + reflexivity.
  - apply (Hhttp uploaded
             [(processing10, Fulfilled someResults); (processing60, Fulfilled someResults)]
             completed100 (Fulfilled someResults) [TimerFires; TimerFires]).
    + reflexivity.
    + repeat constructor.
    + reflexivity.
Defined.

(** A status answer [error] handled over IPC and over HTTP. *)
Example error_status_runs :
  let ipc := VideoCaptureIpc.run true uploaded
               (in_turn [(ipc_ok processing10, ipc_ok someResults);
                         (ipc_ok failed30, ipc_ok someResults)]
                ++ [TimerFires]) in
  let http := VideoCaptureHttp.run uploaded
                (in_turn [(Fulfilled processing10, Fulfilled someResults);
                          (Fulfilled failed30, Fulfilled someResults)]
                 ++ [TimerFires]) in
  trace ipc = [PollRequest "7"; Observed processing10; PollRequest "7"; Observed failed30]
  /\ error (component ipc) = Some "Processing failed. Please try again."
  /\ trace http = trace ipc
  /\ error (component http) = error (component ipc).
Proof. repeat split; vm_compute; reflexivity. Qed.

(** C7. Whenever a status answer reports [error] (whatever its progress, the
    state of the run and the order of later ticks and answers), both versions
    of the component stop polling on that snapshot: the interval is cleared,
    [isProcessing] is false, no request is sent for it, and nothing that
    happens later sends a status request.  The error shown is the fixed text
    "Processing failed. Please try again.", whatever the answer carried. *)
Theorem error_status_stops_polling :
  (forall electronAPI (c : Component) (i : bool) (n : nat) (tr : list Event)
          (p : number) fetch later,
     let s := {| status := "error"; progress := p |} in
     let r := VideoCaptureIpc.step electronAPI
                {| component := c; interval := i; inflight := S n; trace := tr |}
                (StatusSettles (ipc_ok s) fetch) in
     interval r = false
     /\ AppStore.isProcessing (store (component r)) = false
     /\ error (component r) = Some "Processing failed. Please try again."
     /\ trace r = tr ++ [Observed s]
     /\ exists extra,
          trace (fold_left (VideoCaptureIpc.step electronAPI) later r) = trace r ++ extra
          /\ Forall (fun e => is_poll e = false) extra)
  /\ (forall (c : Component) (i : bool) (n : nat) (tr : list Event)
             (p : number) fetch later,
        let s := {| status := "error"; progress := p |} in
        let r := VideoCaptureHttp.step
                   {| component := c; interval := i; inflight := S n; trace := tr |}
                   (StatusSettles (Fulfilled s) fetch) in
        interval r = false
        /\ AppStore.isProcessing (store (component r)) = false
        /\ error (component r) = Some "Processing failed. Please try again."
        /\ trace r = tr ++ [Observed s]
        /\ exists extra,
             trace (fold_left VideoCaptureHttp.step later r) = trace r ++ extra
             /\ Forall (fun e => is_poll e = false) extra).
Proof.
  split.
  - intros electronAPI c i n tr p fetch later s r.
    repeat split. apply ipc_cleared_stays_quiet. reflexivity.
  - intros c i n tr p fetch later s r.
    repeat split. apply http_cleared_stays_quiet. reflexivity.
Qed.

(** C2, as stated, fails: started on an uploaded video, neither version gives
    up after four failed status requests in a row when the failure is a network
    error (over HTTP) or the handler's [{ success: false }] (over IPC), and
    over IPC a single rejected invocation ends polling at once. *)
Lemma polling_has_no_retry_bound :
  interval (VideoCaptureHttp.startPolling uploaded) = true
  /\ interval (VideoCaptureIpc.startPolling true uploaded) = true
  /\ ~ retries_then_gives_up http_failed_poll 3 (VideoCaptureHttp.startPolling uploaded)
  /\ ~ retries_then_gives_up ipc_unsuccessful_poll 3 (VideoCaptureIpc.startPolling true uploaded)
  /\ ~ retries_then_gives_up ipc_rejected_poll 3 (VideoCaptureIpc.startPolling true uploaded).
Proof.
  split; [reflexivity | split; [reflexivity |]].
  split; [| split]; intros (H1 & H2 & H3 & H4); vm_compute in H1, H3; discriminate.
Qed.

Lemma http_failed_rounds (c : Component) (k : nat) (errs : list JsError) fetch :
  forall tr,
    fold_left VideoCaptureHttp.step
      (in_turn (map (fun e => (Rejected e, fetch)) errs))
      {| component := c; interval := true; inflight := k; trace := tr |}
    = {| component := c; interval := true; inflight := k;
         trace := tr ++ replicate (length errs) (PollRequest (default "" (videoId c))) |}.
Proof.
  induction errs as [|e errs IH]; intros tr; simpl.
  - rewrite app_nil_r. reflexivity.
  - unfold VideoCaptureHttp.timerFires, request_settled, the_videoId. simpl.
    rewrite IH, <- app_assoc. reflexivity.
Qed.

Lemma ipc_unsuccessful_rounds (c : Component) (k : nat) (errs : list (option string)) fetch :
  forall tr,
    fold_left (VideoCaptureIpc.step true)
      (in_turn (map (fun e => (Fulfilled (VideoCaptureIpc.IpcFailure e), fetch)) errs))
      {| component := c; interval := true; inflight := k; trace := tr |}
    = {| component := c; interval := true; inflight := k;
         trace := tr ++ replicate (length errs) (PollRequest (default "" (videoId c))) |}.
Proof.
  induction errs as [|e errs IH]; intros tr; simpl.
  - rewrite app_nil_r. reflexivity.
  - unfold VideoCaptureIpc.timerFires, request_settled, the_videoId. simpl.
    rewrite IH, <- app_assoc. reflexivity.
Qed.

(** C2, amended. Failed status requests are not counted and there is no retry
    bound.  Over HTTP a status request that fails at the network level changes
    nothing (component, store and timer are as before), so polling goes on
    after any number of failures in a row and no error is shown.  Over IPC
    the same holds for an answer [{ success: false }], which is what the
    main-process handler makes of a network failure; an invocation that
    rejects ends polling at once: the interval is cleared, [isProcessing] is
    false and the error shown is "Failed to communicate with backend.". *)
Theorem failed_polls_are_not_counted :
  (forall (c : Component) (k : nat) (tr : list Event) (errs : list JsError) fetch,
     fold_left VideoCaptureHttp.step
       (in_turn (map (fun e => (Rejected e, fetch)) errs))
       {| component := c; interval := true; inflight := k; trace := tr |}
     = {| component := c; interval := true; inflight := k;
          trace := tr ++ replicate (length errs) (PollRequest (default "" (videoId c))) |})
  /\ (forall (c : Component) (k : nat) (tr : list Event) (errs : list (option string)) fetch,
        fold_left (VideoCaptureIpc.step true)
          (in_turn (map (fun e => (Fulfilled (VideoCaptureIpc.IpcFailure e), fetch)) errs))
          {| component := c; interval := true; inflight := k; trace := tr |}
        = {| component := c; interval := true; inflight := k;
             trace := tr ++ replicate (length errs) (PollRequest (default "" (videoId c))) |})
  /\ (forall electronAPI (c : Component) (i : bool) (n : nat) (tr : list Event)
             (e : JsError) fetch,
        let r := VideoCaptureIpc.step electronAPI
                   {| component := c; interval := i; inflight := S n; trace := tr |}
                   (StatusSettles (Rejected e) fetch) in
        interval r = false
        /\ AppStore.isProcessing (store (component r)) = false
        /\ error (component r) = Some "Failed to communicate with backend."
        /\ trace r = tr).
Proof.
  split; [| split].
  - intros. apply http_failed_rounds.
  - intros. apply ipc_unsuccessful_rounds.
  - intros. repeat split.
Qed.

End PollingFacts.

(* --------------------------------------------------------------------- *)
(** *** Schema validator *)
(* --------------------------------------------------------------------- *)

Section SchemaValidatorFacts.
Import Js SchemaValidator Fixtures.

Lemma bind_ok {A B : Type} (e : Result A) (k : A -> Result B) (b : B) :
  (a ← e; k a) = Ok b -> exists a, e = Ok a /\ k a = Ok b.
Proof. destruct e as [a|err]; [eauto | discriminate]. Qed.

Lemma bind_err {A B : Type} (e : Result A) (k : A -> Result B) (err : ValidationError) :
  e = Err err -> (a ← e; k a) = Err err.
Proof. intros ->. reflexivity. Qed.

Lemma bind_step {A B : Type} (e : Result A) (k : A -> Result B) (a : A) :
  e = Ok a -> (a ← e; k a) = k a.
Proof. intros ->. reflexivity. Qed.

(** Peel the successful steps off a check that returned [Ok]. *)
Ltac ok_steps H :=
  repeat (apply bind_ok in H; cbv beta in H;
          let a := fresh "a" in
          let Ha := fresh "Ha" in
          destruct H as (a & Ha & H)).

Lemma field_ok (p k : string) (v x : value) :
  field p k v = Ok x -> opt_get v k = x.
Proof.
  unfold field, opt_get. destruct v; try discriminate.
  destruct (assoc k props); [| discriminate]. intros [= ->]. reflexivity.
Qed.

Lemma opt_get_field (p k : string) (v x : value) :
  opt_get v k = x -> x <> VUndefined -> field p k v = Ok x.
Proof.
  unfold field, opt_get. destruct v; try congruence.
  destruct (assoc k props); simpl; congruence.
Qed.

Lemma as_number_ok (p : string) (v : value) (n : number) :
  as_number p v = Ok n -> v = VNum n.
Proof. destruct v; try discriminate. intros [= ->]. reflexivity. Qed.

Lemma as_array_ok (p : string) (v : value) (l : list value) :
  as_array p v = Ok l -> v = VArr l.
Proof. destruct v; try discriminate. intros [= ->]. reflexivity. Qed.

Lemma check_frame_count_frames (raw : value) (md : Metadata) (frs : list value) :
  check_frame_count raw md = Ok frs -> raw_frames raw = frs.
Proof.
  unfold check_frame_count. intros H. ok_steps H.
  apply field_ok in Ha. apply as_array_ok in Ha0. subst a.
  unfold raw_frames. rewrite Ha0.
  destruct (PrimFloat.eqb _ _); [congruence | discriminate].
Qed.

Lemma each_ok_lookup {A B : Type} (check : nat -> A -> Result B) (l : list A) :
  forall i ys, each check i l = Ok ys ->
  forall j x, l !! j = Some x -> exists y, check (i + j) x = Ok y.
Proof.
  induction l as [|x0 l IH]; intros i ys H j x Hj; [discriminate |].
  simpl in H. ok_steps H.
  destruct j as [|j]; simpl in Hj.
  - injection Hj as <-. rewrite Nat.add_0_r. eauto.
  - rewrite Nat.add_succ_r. apply (IH (S i) a0 Ha0 j x Hj).
Qed.

Lemma each_app_err {A B : Type} (check : nat -> A -> Result B)
    (pre : list A) (x : A) (post : list A) (err : ValidationError) :
  forall i,
    (exists ys, each check i pre = Ok ys) ->
    check (i + length pre) x = Err err ->
    each check i (pre ++ x :: post) = Err err.
Proof.
  induction pre as [|x0 pre IH]; intros i [ys Hpre] Hx; simpl in *.
  - rewrite Nat.add_0_r in Hx. rewrite Hx. reflexivity.
  - ok_steps Hpre. rewrite Ha. simpl.
    rewrite (IH (S i)); [reflexivity | eauto |].
    rewrite <- Hx. f_equal. lia.
Qed.

Lemma check_sequence_ok (frs : list value) :
  forall i prev sq, check_sequence i prev frs = Ok sq ->
  forall j fr, frs !! j = Some fr -> frame_is_not (i + j) fr = false.
Proof.
  induction frs as [|fr0 frs IH]; intros i prev sq H j fr Hj; [discriminate |].
  simpl in H. ok_steps H.
  destruct (PrimFloat.eqb a0 (index_number i)) eqn:Hidx; [| discriminate].
  simpl in H. ok_steps H.
  destruct (negb _); [discriminate |]. ok_steps H.
  destruct j as [|j]; simpl in Hj.
  - injection Hj as <-. rewrite Nat.add_0_r.
    unfold frame_is_not. apply field_ok in Ha. rewrite Ha.
    apply as_number_ok in Ha0. rewrite Ha0, Hidx. reflexivity.
  - rewrite Nat.add_succ_r. eapply (IH (S i)); eauto.
Qed.

Lemma check_sequence_misnumbered (pre : list value) (fr : value) (post : list value)
    (n : number) :
  forall i prev,
    (exists sq, check_sequence i prev pre = Ok sq) ->
    opt_get fr "frame" = VNum n ->
    PrimFloat.eqb n (index_number (i + length pre)) = false ->
    check_sequence i prev (pre ++ fr :: post)
    = fail NonMonotonicSequence (dot (at_index "frames" (i + length pre)) "frame").
Proof.
  induction pre as [|fr0 pre IH]; intros i prev [sq Hpre] Hfr Hn.
  - simpl in *. rewrite Nat.add_0_r in *.
    rewrite (opt_get_field _ _ _ _ Hfr) by discriminate. simpl.
    rewrite Hn. reflexivity.
  - simpl in Hpre. ok_steps Hpre.
    destruct (PrimFloat.eqb a0 (index_number i)) eqn:Hidx; [| discriminate].
    simpl in Hpre. ok_steps Hpre.
    destruct (negb _) eqn:Htime; [discriminate |]. ok_steps Hpre.
    replace (i + length (fr0 :: pre)) with (S i + length pre) in * by (simpl; lia).
    specialize (IH (S i) (Some a2) (ex_intro _ a3 Ha3) Hfr Hn).
    change ((fr0 :: pre) ++ fr :: post) with (fr0 :: (pre ++ fr :: post)).
    cbn [check_sequence].
    rewrite (bind_step _ _ _ Ha). rewrite (bind_step _ _ _ Ha0). rewrite Hidx.
    cbn [negb].
    rewrite (bind_step _ _ _ Ha1). rewrite (bind_step _ _ _ Ha2). rewrite Htime.
    rewrite IH. reflexivity.
Qed.

Lemma frame_shapes_short (i : nat) (fr : value) :
  pose_has 30 fr = true ->
  frame_shapes i fr
  = fail ShapeMismatch (dot (dot (at_index "frames" i) "landmarks") "pose").
Proof.
  unfold pose_has, frame_shapes. intros H.
  destruct (opt_get fr "landmarks") as [| | | | | |props] eqn:Hlm; try discriminate H.
  rewrite (bind_step _ _ _ (opt_get_field _ "landmarks" _ _ Hlm ltac:(discriminate))).
  destruct (opt_get (VObj props) "pose") as [| | | | |l|] eqn:Hpose; try discriminate H.
  apply Nat.eqb_eq in H.
  apply bind_err. unfold optional. apply bind_err. unfold channel.
  rewrite (bind_step _ _ l) by reflexivity.
  apply bind_err. unfold has_length. rewrite H. reflexivity.
Qed.

Lemma frame_shapes_ok (i : nat) (fr : value) (lm : FrameLandmarks) :
  frame_shapes i fr = Ok lm -> pose_has 30 fr = false.
Proof.
  intros H. destruct (pose_has 30 fr) eqn:Hp; [| reflexivity].
  apply (frame_shapes_short i) in Hp. unfold fail in Hp. congruence.
Qed.

Lemma validate_ok_checks (raw : value) (a : AnimationData) :
  validate raw = Ok a ->
  in_sequence (raw_frames raw) /\ well_shaped 0 (raw_frames raw).
Proof.
  unfold validate. intros H. ok_steps H.
  apply check_frame_count_frames in Ha0. rewrite Ha0.
  split; eexists; eassumption.
Qed.

Example validate_fourFrames : validateAnimationData fourFrames = true.
Proof. vm_compute. reflexivity. Qed.

Example validate_misnumbered :
  validate misnumbered = fail NonMonotonicSequence "frames[3].frame".
Proof. vm_compute. reflexivity. Qed.

Example validate_shortPose :
  validate shortPose = fail ShapeMismatch "frames[3].landmarks.pose".
Proof. vm_compute. reflexivity. Qed.

Example validate_misnumberedShortPose :
  validate misnumberedShortPose = fail NonMonotonicSequence "frames[3].frame".
Proof. vm_compute. reflexivity. Qed.

(** The checks stop at the first violation: a document whose [fps] is 0 is
    rejected for that, whatever its frames hold. *)
Example validate_misnumberedNoFps :
  validate misnumberedNoFps = fail OutOfRange "metadata.fps".
Proof. vm_compute. reflexivity. Qed.

(** C8. Every document in which some frame's [frame] differs from its
    position (so [frames[3].frame != 3]), or in which some pose array has 30
    entries, is rejected.  The checks run in order and stop at the first
    violation, so the tag is that of the first violation:
    [NonMonotonicSequence], at [frames[i].frame], when the document passes the
    metadata, frame-count and skeleton checks and the frames before position
    [i] are in sequence; [ShapeMismatch], at [frames[i].landmarks.pose], when
    it passes those checks and the sequence check and the frames before
    position [i] have well-shaped landmarks.  A rejection carries no animation
    data, and an accepted document has neither defect. *)
Theorem validate_rejects_defects (raw : value) :
  (forall i fr, raw_frames raw !! i = Some fr -> frame_is_not i fr = true ->
                rejected (validate raw))
  /\ (forall i fr, raw_frames raw !! i = Some fr -> pose_has 30 fr = true ->
                   rejected (validate raw))
  /\ (forall pre fr post n,
        passes_before_sequence raw (pre ++ fr :: post) ->
        in_sequence pre ->
        opt_get fr "frame" = VNum n ->
        PrimFloat.eqb n (index_number (length pre)) = false ->
        validate raw
        = fail NonMonotonicSequence (dot (at_index "frames" (length pre)) "frame"))
  /\ (forall pre fr post,
        passes_before_sequence raw (pre ++ fr :: post) ->
        in_sequence (pre ++ fr :: post) ->
        well_shaped 0 pre ->
        pose_has 30 fr = true ->
        validate raw
        = fail ShapeMismatch
            (dot (dot (at_index "frames" (length pre)) "landmarks") "pose"))
  /\ (rejected (validate raw) ->
      validateAnimationData raw = false /\ forall a, validate raw <> Ok a)
  /\ (forall a, validate raw = Ok a ->
      forall i fr, raw_frames raw !! i = Some fr ->
                   frame_is_not i fr = false /\ pose_has 30 fr = false).
Proof.
  assert (Hok : forall a, validate raw = Ok a ->
                forall i fr, raw_frames raw !! i = Some fr ->
                             frame_is_not i fr = false /\ pose_has 30 fr = false).
  { intros a Ha i fr Hfr.
    destruct (validate_ok_checks raw a Ha) as [[sq Hsq] [lms Hlms]]. split.
    - apply (check_sequence_ok _ 0 None sq Hsq i fr Hfr).
    - destruct (each_ok_lookup _ _ 0 lms Hlms i fr Hfr) as [lm Hlm].
      apply (frame_shapes_ok _ _ _ Hlm). }
  split; [| split; [| split; [| split; [| split]]]].
  - intros i fr Hfr Hbad. destruct (validate raw) as [a|e] eqn:Hv; [| eexists; reflexivity].
    destruct (Hok a eq_refl i fr Hfr) as [Hgood _]. congruence.
  - intros i fr Hfr Hbad. destruct (validate raw) as [a|e] eqn:Hv; [| eexists; reflexivity].
    destruct (Hok a eq_refl i fr Hfr) as [_ Hgood]. congruence.
  - intros pre fr post n (md & sk & Hmd & Hfrs & Hsk) Hpre Hfr Hn.
    unfold validate.
    rewrite (bind_step _ _ _ Hmd), (bind_step _ _ _ Hfrs), (bind_step _ _ _ Hsk).
    apply bind_err.
    apply (check_sequence_misnumbered pre fr post n 0 None Hpre Hfr Hn).
  - intros pre fr post (md & sk & Hmd & Hfrs & Hsk) [sq Hsq] Hpre Hpose.
    unfold validate.
    rewrite (bind_step _ _ _ Hmd), (bind_step _ _ _ Hfrs), (bind_step _ _ _ Hsk),
      (bind_step _ _ _ Hsq).
    apply bind_err. unfold check_shapes.
    apply each_app_err; [exact Hpre |].
    apply frame_shapes_short. exact Hpose.
  - intros [e He]. unfold validateAnimationData. rewrite He.
    split; [reflexivity | discriminate].
  - exact Hok.
Qed.

(** The theorem at the two documents of the design document's test: a fourth
    frame numbered 7, and a fourth frame whose pose has 30 entries. *)
Lemma validate_rejects_defects_witness :
  validate misnumbered = fail NonMonotonicSequence "frames[3].frame"
  /\ validate shortPose = fail ShapeMismatch "frames[3].landmarks.pose"
  /\ rejected (validate misnumberedShortPose).
Proof.
  split; [| split].
  - destruct (validate_rejects_defects misnumbered) as (_ & _ & H & _).
    apply (H firstThree (frame_value 7 0.09375 (pose_of 33)) [] 7%float).
    + eexists _, _. repeat split; reflexivity.
    + eexists. reflexivity.
    + reflexivity.
    + reflexivity.
  - destruct (validate_rejects_defects shortPose) as (_ & _ & _ & H & _).
    apply (H firstThree (frame_value 3 0.09375 (pose_of 30)) []).
    + eexists _, _. repeat split; reflexivity.
    + eexists. reflexivity.
    + eexists. reflexivity.
    + reflexivity.
  - destruct (validate_rejects_defects misnumberedShortPose) as (H & _).
    apply (H 3 (frame_value 7 0.09375 (pose_of 30))); reflexivity.
Defined.

End SchemaValidatorFacts.

(* ===================================================================== *)
(** ** Further properties of the code *)
(* ===================================================================== *)

(* --------------------------------------------------------------------- *)
(** *** The store's actions *)
(* --------------------------------------------------------------------- *)

Section AppStoreActionFacts.
Import Js Async AppStore AppStoreActions.

Lemma spread_spread (s a b : gmap string value) :
  spread (spread s a) b = spread s (spread a b).
Proof. unfold spread. apply (assoc_L (∪)). Qed.

Lemma spread_empty (s : gmap string value) : spread s ∅ = s.
Proof. unfold spread. apply (left_id_L ∅ (∪)). Qed.

Lemma spread_idemp (a : gmap string value) : spread a a = a.
Proof. unfold spread. apply (idemp_L (∪)). Qed.

(** X1. Partial updates compose by merging: updating the settings with [a]
    and then with [b] is one update with [{ ...a, ...b }], an update with no
    keys changes nothing, and repeating an update changes nothing more; the
    same holds for the flow metrics. *)
Theorem updates_compose (a b : gmap string value) (s : AppState) :
  updateSettings b (updateSettings a s) = updateSettings (spread a b) s
  /\ updateSettings ∅ s = s
  /\ updateSettings a (updateSettings a s) = updateSettings a s
  /\ updateFlowMetrics b (updateFlowMetrics a s) = updateFlowMetrics (spread a b) s
  /\ updateFlowMetrics ∅ s = s
  /\ updateFlowMetrics a (updateFlowMetrics a s) = updateFlowMetrics a s.
Proof.
  destruct s as [bs cs ss vp ip pp md cf fm st].
  unfold updateSettings, updateFlowMetrics, set_with, set; simpl.
  repeat split; f_equal;
    rewrite ?spread_spread, ?spread_idemp, ?spread_empty; reflexivity.
Qed.

(** X2. [resetApp] puts the video, processing, motion and metric fields back
    to their initial values and leaves a fresh current session stamped by the
    clock, not [null]; it never touches the settings, the backend status or
    the session list.  The state it leaves does not depend on the fields it
    resets, so resetting twice is resetting once. *)
Theorem resetApp_keeps_settings (clock clock' : Clock) (s : AppState) :
  resetApp clock s
  = {| backendStatus := backendStatus s;
       currentSession := Some (newSession clock);
       sessions := sessions s;
       videoPath := None;
       isProcessing := false;
       processingProgress := 0;
       motionData := [];
       currentFrame := 0;
       flowMetrics := initialFlowMetrics;
       settings := settings s |}
  /\ resetApp clock (resetApp clock' s) = resetApp clock s
  /\ (forall part, resetApp clock (updateSettings part s)
                   = updateSettings part (resetApp clock s)).
Proof.
  destruct s as [bs cs ss vp ip pp md cf fm st]. repeat split.
Qed.

Lemma dispatch_sessions (s : AppState) (a : Action) :
  sessions (dispatch s a) = sessions s.
Proof.
  destruct a; try reflexivity.
  simpl. unfold initializeApp.
  destruct saved as [text|]; [| reflexivity].
  destruct (String.eqb text ""); [reflexivity |].
  destruct (parse text); reflexivity.
Qed.

Lemma dispatch_settings (s : AppState) (a : Action) :
  changes_settings a = false -> settings (dispatch s a) = settings s.
Proof. destruct a; try discriminate; reflexivity. Qed.

Lemma dispatch_settings_only (s s' : AppState) (a : Action) :
  settings s = settings s' -> settings (dispatch s a) = settings (dispatch s' a).
Proof.
  intros H. destruct a; simpl; try exact H.
  - unfold updateSettings, set_with, set. simpl. rewrite H. reflexivity.
  - unfold initializeApp.
    destruct saved as [text|]; [| exact H].
    destruct (String.eqb text ""); [exact H |].
    destruct (parse text); [reflexivity | exact H].
Qed.

(** X3. No action of the store ever writes the session list: after any
    sequence of actions it is what it was, so from the initial state it stays
    empty.  The settings are changed by [updateSettings] and [initializeApp]
    only: what they are after a sequence of actions is what those two kinds of
    action alone would have left. *)
Theorem sessions_never_recorded (actions : list Action) (s : AppState) :
  sessions (fold_left dispatch actions s) = sessions s
  /\ sessions (fold_left dispatch actions initialState) = []
  /\ settings (fold_left dispatch actions s)
     = settings (fold_left dispatch (filter (fun a => changes_settings a = true) actions) s).
Proof.
  assert (H : forall s0, sessions (fold_left dispatch actions s0) = sessions s0).
  { induction actions as [|a actions IH]; intros s0; [reflexivity |].
    simpl. rewrite IH. apply dispatch_sessions. }
  split; [apply H | split; [rewrite H; reflexivity |]]. clear H.
  assert (H : forall s1 s2, settings s1 = settings s2 ->
            settings (fold_left dispatch actions s1)
            = settings (fold_left dispatch
                          (filter (fun a => changes_settings a = true) actions) s2)).
  { induction actions as [|a actions IH]; intros s1 s2 Heq; [exact Heq |].
    rewrite filter_cons. destruct (decide (changes_settings a = true)) as [Ha|Ha]; simpl.
    - apply IH. apply dispatch_settings_only. exact Heq.
    - apply IH. rewrite dispatch_settings; [exact Heq |].
      destruct (changes_settings a); congruence. }
  apply H. reflexivity.
Qed.

(** X4. [initializeApp] replaces the settings by the saved ones, it does not
    merge them: afterwards a key is set exactly when the saved object has it.
    With nothing saved (or an empty string) the settings are untouched.  In
    both cases a fresh session is current and nothing else changes.  When
    parsing the saved text throws, the action throws with that error before
    any session is created. *)
Theorem initializeApp_replaces_settings
    (parse : string -> Settled (gmap string value)) (clock : Clock) (s : AppState) :
  (forall text saved,
     text <> "" -> parse text = Fulfilled saved ->
     exists s', initializeApp (Some text) parse clock s = Fulfilled s'
                /\ settings s' = saved
                /\ currentSession s' = Some (newSession clock)
                /\ s' = createSession clock (set [settings_is saved] s))
  /\ (forall text e,
        text <> "" -> parse text = Rejected e ->
        initializeApp (Some text) parse clock s = Rejected e)
  /\ initializeApp None parse clock s = Fulfilled (createSession clock s)
  /\ initializeApp (Some "") parse clock s = Fulfilled (createSession clock s)
  /\ settings (createSession clock s) = settings s.
Proof.
  repeat split.
  - intros text saved Hne Hparse. unfold initializeApp.
    apply String.eqb_neq in Hne. rewrite Hne, Hparse.
    eexists. repeat split.
  - intros text e Hne Hparse. unfold initializeApp.
    apply String.eqb_neq in Hne. rewrite Hne, Hparse. reflexivity.
Qed.

(** Saved settings that hold the theme only: the playback speed that was set
    before is gone afterwards. *)
Lemma initializeApp_replaces_settings_witness :
  let parse := fun _ : string => Fulfilled ({[ "theme" := VStr "light" ]} : gmap string value) in
  let clock := {| now := 1700000000000; date := 1700000000000 |} in
  settings initialState !! "playbackSpeed" <> None
  /\ exists s', initializeApp (Some "saved") parse clock initialState = Fulfilled s'
                /\ settings s' = {[ "theme" := VStr "light" ]}
                /\ settings s' !! "playbackSpeed" = None.
Proof.
  intros parse clock. split; [vm_compute; discriminate |].
  destruct (initializeApp_replaces_settings parse clock initialState) as (H & _).
  destruct (H "saved" {[ "theme" := VStr "light" ]}) as (s' & Hs' & Hset & _);
    [discriminate | reflexivity |].
  exists s'. split; [exact Hs' | split; [exact Hset |]].
  rewrite Hset. reflexivity.
Defined.

End AppStoreActionFacts.

(* --------------------------------------------------------------------- *)
(** *** VideoCapture over IPC: selecting and processing a video *)
(* --------------------------------------------------------------------- *)

Section VideoCaptureIpcHandlerFacts.
Import Js Async Polling VideoCaptureIpc VideoCaptureIpcHandlers.

Lemma handleProcess_calls (electronAPI : bool)
    (upload : Settled (IpcResult UploadData))
    (process : string -> Settled (IpcResult unit)) (c : Component) :
  calls (handleProcess electronAPI upload process c)
  = (if ready electronAPI c then
       UploadVideo (default "" (AppStore.videoPath (store c)))
       :: match uploaded_id upload with
          | Some id => [ProcessVideo id]
          | None => []
          end
     else []).
Proof.
  unfold handleProcess, ready, uploaded_id, given.
  destruct c as [ip vid res err st]; simpl.
  destruct (AppStore.videoPath st) as [path|]; simpl; [| reflexivity].
  destruct (String.eqb path ""); simpl; [reflexivity |].
  destruct electronAPI; simpl; [| reflexivity].
  destruct upload as [[d|e]|e]; simpl; try reflexivity.
  destruct (process (video_id d)) as [[u|e]|e]; reflexivity.
Qed.

(** X5. [handleProcess] over IPC, whatever else runs while it awaits.  The
    requests it sends do not depend on that: none when a guard stops it (no
    video path, or no [electronAPI]), else the upload of the stored path and,
    only when the upload was answered with success, one process request for
    the id that answer carried.  Stopped by a guard, it sets an error and
    changes nothing else.  When the upload or the process request is not
    answered with success, it ends with [isProcessing] false and an error
    shown, so with polling off.  When both are, it ends on the component as the
    other callbacks left it, with the new video id set after the upload.  With
    nothing else running it is the handler run in one piece, which then leaves
    [isProcessing] up, no error, and polling armed when the id is not empty. *)
Theorem handleProcess_outcomes (electronAPI : bool)
    (upload : Settled (IpcResult UploadData))
    (process : string -> Settled (IpcResult unit))
    (during_upload during_process : Component -> Component) (c : Component) :
  let h := handleProcess_amid electronAPI upload process
             during_upload during_process c in
  let quiet := handleProcess electronAPI upload process c in
  calls h
  = (if ready electronAPI c then
       UploadVideo (default "" (AppStore.videoPath (store c)))
       :: match uploaded_id upload with
          | Some id => [ProcessVideo id]
          | None => []
          end
     else [])
  /\ (ready electronAPI c = false ->
      shows_error (after h) = true
      /\ after h = setError (error (after h)) c)
  /\ (ready electronAPI c = true -> succeeded upload process = false ->
      AppStore.isProcessing (store (after h)) = false
      /\ shows_error (after h) = true
      /\ forall api, polls api (after h) = false)
  /\ (ready electronAPI c = true -> succeeded upload process = true ->
      after h
      = during_process
          (setVideoId (uploaded_id upload)
             (during_upload
                (setError None (setProcessingProgress 0 (setIsProcessing true c))))))
  /\ handleProcess_amid electronAPI upload process (fun c => c) (fun c => c) c = quiet
  /\ (ready electronAPI c = true -> succeeded upload process = true ->
      AppStore.isProcessing (store (after quiet)) = true
      /\ shows_error (after quiet) = false
      /\ polls electronAPI (after quiet) = given (uploaded_id upload)).
Proof.
  unfold handleProcess_amid, handleProcess, ready, succeeded, uploaded_id, polls,
    shows_error, startPolling, has_videoId, given.
  destruct c as [ip vid res err st]; simpl.
  destruct (AppStore.videoPath st) as [path|] eqn:Hpath; simpl;
    [destruct (String.eqb path "") eqn:Hempty; simpl |];
    try (destruct electronAPI; simpl);
    try (repeat split; try discriminate; reflexivity).
  destruct upload as [[d|e]|e]; simpl;
    try destruct (process (video_id d)) as [[u|e]|e]; simpl;
    repeat split; try discriminate; intros;
    rewrite ?andb_true_r, ?andb_false_r; reflexivity.
Qed.

(** X6. [handleFileSelect] over IPC.  A path picked in the dialog becomes the
    video path and clears the video id, the results and the error, so the
    polling effect is not armed afterwards and the next [handleProcess]
    uploads the picked path; a cancelled dialog, and the browser fallback,
    change nothing. *)
Theorem handleFileSelect_resets_job (electronAPI fileInput api : bool)
    (picked : option string)
    (upload : Settled (IpcResult UploadData))
    (process : string -> Settled (IpcResult unit)) (c : Component) :
  let h := handleFileSelect electronAPI fileInput picked c in
  after h
  = (if electronAPI && given picked
     then {| isPlaying := isPlaying c; videoId := None; processingResults := None;
             error := None; store := AppStore.setVideoPath picked (store c) |}
     else c)
  /\ polls api (after h) = (if electronAPI && given picked then false else polls api c)
  /\ calls (handleProcess true upload process (after h))
     = (if electronAPI && given picked
        then UploadVideo (default "" picked)
             :: match uploaded_id upload with
                | Some id => [ProcessVideo id]
                | None => []
                end
        else calls (handleProcess true upload process c)).
Proof.
  unfold handleFileSelect.
  destruct electronAPI; simpl; [| destruct fileInput; repeat split].
  destruct (given picked) eqn:Hp; simpl; [| repeat split].
  repeat split.
  rewrite handleProcess_calls. unfold ready. simpl.
  rewrite Hp. reflexivity.
Qed.

End VideoCaptureIpcHandlerFacts.

(* --------------------------------------------------------------------- *)
(** *** VideoCapture over HTTP: selecting and processing a video *)
(* --------------------------------------------------------------------- *)

Section VideoCaptureHttpHandlerFacts.
Import Js Async VideoCaptureHttpHandlers.

(** X7. Over HTTP the upload is sent exactly when the component holds a file
    and no video id: [handleProcess] never uploads while a video id from an
    earlier upload is held, whatever file has been chosen since, and at most
    one upload and one process request are sent. *)
Theorem upload_only_without_id (upload : File -> Settled UploadData)
    (process : string -> Settled unit) (st : Capture) :
  let h := handleProcess upload process st in
  existsb is_upload (calls h) = held (videoFile st) && negb (given (videoId st))
  /\ length (calls h) <= 2
  /\ videoFile (after h) = videoFile st
  /\ videoPath (after h) = videoPath st.
Proof.
  unfold handleProcess, start_processing.
  destruct st as [vf vp vid ip pp res err]; simpl.
  destruct vf as [file|]; simpl.
  - destruct (given vid) eqn:Hid; simpl.
    + destruct (process (default "" vid)); simpl;
        (split; [reflexivity | split; [lia | split; reflexivity]]).
    + destruct (upload file) as [d|e]; simpl;
        [| split; [reflexivity | split; [lia | split; reflexivity]]].
      destruct (String.eqb (video_id d) ""); simpl;
        [split; [reflexivity | split; [lia | split; reflexivity]] |].
      destruct (process (video_id d)); simpl;
        (split; [reflexivity | split; [lia | split; reflexivity]]).
  - destruct (given vp) eqn:Hp; simpl;
      [| split; [reflexivity | split; [lia | split; reflexivity]]].
    destruct (given vid) eqn:Hid; simpl;
      [| split; [reflexivity | split; [lia | split; reflexivity]]].
    destruct (process (default "" vid)); simpl;
      (split; [reflexivity | split; [lia | split; reflexivity]]).
Qed.

(** X8. Over HTTP, choosing another file while a video id is held and then
    processing sends one request, the process request for the held id: the
    file just chosen is not uploaded. *)
Theorem second_file_not_uploaded (upload : File -> Settled UploadData)
    (process : string -> Settled unit) (file : File) (url : string) (st : Capture)
    (Hid : given (videoId st) = true) :
  calls (handleProcess upload process (handleFileChange (Some (file, url)) st))
  = [ProcessVideo (default "" (videoId st))]
  /\ videoId (after (handleProcess upload process
                       (handleFileChange (Some (file, url)) st)))
     = videoId st.
Proof.
  unfold handleProcess, handleFileChange, start_processing. simpl.
  rewrite Hid. simpl.
  destruct (process (default "" (videoId st))); split; reflexivity.
Qed.

(** The held id is that of the first upload; the second file is never sent. *)
Lemma second_file_not_uploaded_witness :
  calls (handleProcess (fun _ => Fulfilled {| video_id := "8" |})
           (fun _ => Fulfilled tt)
           (handleFileChange (Some ({| name := "second.mp4" |}, "blob:2"))
              (after (handleProcess (fun _ => Fulfilled {| video_id := "7" |})
                        (fun _ => Fulfilled tt)
                        (handleFileChange (Some ({| name := "first.mp4" |}, "blob:1"))
                           initialCapture)))))
  = [ProcessVideo "7"].
Proof.
  apply (second_file_not_uploaded
           (fun _ => Fulfilled {| video_id := "8" |}) (fun _ => Fulfilled tt)
           {| name := "second.mp4" |} "blob:2"
           (after (handleProcess (fun _ => Fulfilled {| video_id := "7" |})
                     (fun _ => Fulfilled tt)
                     (handleFileChange (Some ({| name := "first.mp4" |}, "blob:1"))
                        initialCapture)))).
  reflexivity.
Defined.

(** X9. Over HTTP, a component that holds a video path but neither a file nor
    a video id (the state the Electron file dialog leaves) sends no request
    when processing is started, and yet the processing flag stays up with no
    error shown and the polling effect not armed. *)
Theorem path_without_file_stalls (upload : File -> Settled UploadData)
    (process : string -> Settled unit) (st : Capture)
    (Hfile : videoFile st = None)
    (Hpath : given (videoPath st) = true)
    (Hid : given (videoId st) = false) :
  let h := handleProcess upload process st in
  calls h = []
  /\ isProcessing (after h) = true
  /\ error (after h) = VNull
  /\ polls (after h) = false.
Proof.
  unfold handleProcess, start_processing, polls. simpl.
  rewrite Hfile, Hpath. simpl. rewrite Hid. simpl. rewrite Hid. repeat split.
Qed.

(** The state after picking a path in the Electron dialog, from the start. *)
Lemma path_without_file_stalls_witness :
  let h := handleProcess (fun _ => Fulfilled {| video_id := "7" |})
             (fun _ => Fulfilled tt)
             (after (handleFileSelect true false (Some "/videos/form.mp4")
                       initialCapture)) in
  calls h = []
  /\ isProcessing (after h) = true
  /\ error (after h) = VNull
  /\ polls (after h) = false.
Proof.
  apply (path_without_file_stalls
           (fun _ => Fulfilled {| video_id := "7" |}) (fun _ => Fulfilled tt)
           (after (handleFileSelect true false (Some "/videos/form.mp4")
                     initialCapture)));
    reflexivity.
Defined.

End VideoCaptureHttpHandlerFacts.

(* --------------------------------------------------------------------- *)
(** *** Main process: waiting for the backend *)
(* --------------------------------------------------------------------- *)

Section MainStartupFacts.
Import Js Async MainStartup.

Lemma waitLoop_spec (health : nat -> Settled number) (window : nat -> bool) :
  forall fuel attempts,
    maxAttempts - attempts < fuel ->
    exists w,
      waitLoop fuel attempts health window = Some w
      /\ attempts + checks w <= Nat.max attempts maxAttempts
      /\ (forall k, attempts <= k -> S k < attempts + checks w ->
                    checkBackend (health k) = false)
      /\ match outcome w with
         | GaveUp =>
             sleeps w = checks w
             /\ attempts + checks w = Nat.max attempts maxAttempts
             /\ forall k, attempts <= k -> k < maxAttempts ->
                          checkBackend (health k) = false
         | reached =>
             S (sleeps w) = checks w
             /\ checkBackend (health (attempts + sleeps w)) = true
             /\ reached = (if window (attempts + sleeps w) then BackendReady
                           else WindowGone)
         end.
Proof.
  induction fuel as [|fuel IH]; intros attempts Hfuel; [lia |].
  simpl. destruct (Nat.ltb_spec attempts maxAttempts) as [Hlt|Hge].
  - destruct (checkBackend (health attempts)) eqn:Hcheck.
    + eexists. split; [reflexivity |]. simpl.
      split; [lia |]. split; [intros k Hk1 Hk2; lia |].
      rewrite Nat.add_0_r.
      destruct (window attempts); repeat split; assumption.
    + destruct (IH (S attempts)) as (w & Hw & Hbound & Hfailed & Hout); [lia |].
      rewrite Hw. simpl. eexists. split; [reflexivity |]. simpl.
      split; [lia |].
      split.
      { intros k Hk1 Hk2. destruct (Nat.eq_dec k attempts) as [->|Hne];
          [exact Hcheck | apply Hfailed; lia]. }
      destruct (outcome w).
      * destruct Hout as (Hs & Hc & Hr).
        replace (attempts + S (sleeps w)) with (S attempts + sleeps w) by lia.
        repeat split; [lia | exact Hc | exact Hr].
      * destruct Hout as (Hs & Hc & Hr).
        replace (attempts + S (sleeps w)) with (S attempts + sleeps w) by lia.
        repeat split; [lia | exact Hc | exact Hr].
      * destruct Hout as (Hs & Hc & Hall).
        split; [lia |]. split; [lia |].
        intros k Hk1 Hk2. destruct (Nat.eq_dec k attempts) as [->|Hne];
          [exact Hcheck | apply Hall; lia].
  - eexists. split; [reflexivity |]. simpl.
    split; [lia |]. split; [intros; lia |].
    split; [reflexivity |]. split; [lia |]. intros; lia.
Qed.

(** X10. [waitForBackend] ends, after at most 30 health checks one second
    apart.  It stops at the first check answered with status 200 (every
    earlier check failed) and tells the window, or throws there if the window
    is gone; it gives up with the error box exactly when all 30 checks failed,
    having slept after each of them. *)
Theorem waitForBackend_bounded (health : nat -> Settled number) (window : nat -> bool) :
  exists w,
    (forall fuel, maxAttempts < fuel -> waitForBackend fuel health window = Some w)
    /\ 1 <= checks w <= 30
    /\ (forall k, S k < checks w -> checkBackend (health k) = false)
    /\ match outcome w with
       | GaveUp =>
           checks w = 30 /\ sleeps w = 30
           /\ forall k, k < 30 -> checkBackend (health k) = false
       | reached =>
           S (sleeps w) = checks w
           /\ checkBackend (health (sleeps w)) = true
           /\ reached = (if window (sleeps w) then BackendReady else WindowGone)
       end.
Proof.
  destruct (waitLoop_spec health window (S maxAttempts) 0) as (w & Hw & Hb & Hf & Hout);
    [unfold maxAttempts; lia |].
  exists w. split.
  - intros fuel Hfuel.
    destruct (waitLoop_spec health window fuel 0) as (w' & Hw' & _);
      [unfold maxAttempts in *; lia |].
    unfold waitForBackend. rewrite Hw'. f_equal.
    assert (Hmono : forall f1 f2 a w1 w2,
               waitLoop f1 a health window = Some w1 ->
               waitLoop f2 a health window = Some w2 -> w1 = w2).
    { induction f1 as [|f1 IH1]; intros f2 a w1 w2 H1 H2; [discriminate |].
      destruct f2 as [|f2]; [discriminate |]. simpl in H1, H2.
      destruct (a <? maxAttempts); [| congruence].
      destruct (checkBackend (health a)); [congruence |].
      destruct (waitLoop f1 (S a) health window) as [v1|] eqn:E1; [| discriminate].
      destruct (waitLoop f2 (S a) health window) as [v2|] eqn:E2; [| discriminate].
      simpl in H1, H2. rewrite (IH1 f2 (S a) v1 v2 E1 E2) in H1. congruence. }
    exact (Hmono _ _ _ _ _ Hw' Hw).
  - simpl in *. unfold maxAttempts in *.
    split; [| split].
    + split; [| lia].
      destruct (checks w) eqn:Hc; [| lia].
      destruct (outcome w); destruct Hout as (H1 & H2 & H3); lia.
    + intros k Hk. apply Hf; lia.
    + destruct (outcome w); destruct Hout as (H1 & H2 & H3).
      * repeat split; assumption.
      * repeat split; assumption.
      * repeat split; [lia | lia |]. intros k Hk. apply H3; lia.
Qed.

End MainStartupFacts.

(* --------------------------------------------------------------------- *)
(** *** Main process: the other backend handlers *)
(* --------------------------------------------------------------------- *)

Section MainIpcOtherFacts.
Import Js Async MainIpc MainIpcOther.


End MainIpcOtherFacts.

(* --------------------------------------------------------------------- *)
(** *** Polling: overlapping requests, what is shown, and a dead backend *)
(* --------------------------------------------------------------------- *)

Section PollingMoreFacts.
Import Js Async Polling IpcBridge Fixtures.

Lemma http_ticks (c : Component) (k : nat) :
  forall n tr,
    fold_left VideoCaptureHttp.step (replicate k TimerFires)
      {| component := c; interval := true; inflight := n; trace := tr |}
    = {| component := c; interval := true; inflight := n + k;
         trace := tr ++ replicate k (PollRequest (default "" (videoId c))) |}.
Proof.
  induction k as [|k IH]; intros n tr; simpl.
  - rewrite app_nil_r, Nat.add_0_r. reflexivity.
  - unfold VideoCaptureHttp.timerFires, request_sent, emit, the_videoId. simpl.
    rewrite IH, <- app_assoc. simpl. f_equal. lia.
Qed.

Lemma http_completed_settles (s : Snapshot) fetch (k : nat) :
  completed s = true ->
  forall r,
    k <= inflight r ->
    let r' := fold_left VideoCaptureHttp.step
                (replicate k (StatusSettles (Fulfilled s) fetch)) r in
    trace r' = trace r ++ mjoin (replicate k [Observed s; ResultsRequest (the_videoId r)])
    /\ inflight r' = inflight r - k.
Proof.
  intros Hs. induction k as [|k IH]; intros r Hk; simpl.
  - rewrite app_nil_r. split; [reflexivity | lia].
  - destruct r as [c i n tr]. simpl in *.
    destruct n as [|n]; [lia |].
    unfold VideoCaptureHttp.statusSettled, request_settled. simpl. rewrite Hs.
    destruct fetch as [d|e]; simpl;
      match goal with
      | |- context [fold_left _ _ ?r0] =>
          destruct (IH r0) as [Htr Hin]; [simpl; lia |]
      end; simpl in *; rewrite Htr, Hin; simpl;
      rewrite <- !app_assoc; split; reflexivity.
Qed.

Lemma no_fetch_in_polls (k : nat) (v : string) :
  filter (fun e => is_fetch e = true) (replicate k (PollRequest v)) = [].
Proof.
  induction k as [|k IH]; [reflexivity |].
  change (replicate (S k) (PollRequest v))
    with (PollRequest v :: replicate k (PollRequest v)).
  rewrite filter_cons_False by (simpl; discriminate). exact IH.
Qed.

Lemma fetches_in_pairs (k : nat) (s : Snapshot) (v : string) :
  length (filter (fun e => is_fetch e = true)
            (mjoin (replicate k [Observed s; ResultsRequest v]))) = k.
Proof.
  induction k as [|k IH]; [reflexivity |].
  change (mjoin (replicate (S k) [Observed s; ResultsRequest v]))
    with (Observed s :: ResultsRequest v
          :: mjoin (replicate k [Observed s; ResultsRequest v])).
  rewrite filter_cons_False by (simpl; discriminate).
  rewrite filter_cons_True by reflexivity.
  simpl. f_equal. exact IH.
Qed.

(** X12. The results are fetched once for every [completed] answer, not once
    per job: when [k] status requests are in flight together and each is
    answered [completed], the HTTP version sends [k] results requests. *)
Theorem overlapping_polls_fetch_again (c : Component) (k : nat) (p : number) fetch
    (Harmed : interval (VideoCaptureHttp.startPolling c) = true) :
  let s := {| status := "completed"; progress := p |} in
  trace (VideoCaptureHttp.run c
           (replicate k TimerFires ++ replicate k (StatusSettles (Fulfilled s) fetch)))
  = replicate k (PollRequest (default "" (videoId c)))
    ++ mjoin (replicate k [Observed s; ResultsRequest (default "" (videoId c))])
  /\ length (filter (fun e => is_fetch e = true)
               (trace (VideoCaptureHttp.run c
                         (replicate k TimerFires
                          ++ replicate k (StatusSettles (Fulfilled s) fetch)))))
     = k.
Proof.
  intros s.
  assert (Htrace :
    trace (VideoCaptureHttp.run c
             (replicate k TimerFires ++ replicate k (StatusSettles (Fulfilled s) fetch)))
    = replicate k (PollRequest (default "" (videoId c)))
      ++ mjoin (replicate k [Observed s; ResultsRequest (default "" (videoId c))])).
  { unfold VideoCaptureHttp.run. rewrite fold_left_app.
    unfold VideoCaptureHttp.startPolling in *. simpl in Harmed. rewrite Harmed.
    rewrite http_ticks. simpl.
    destruct (http_completed_settles s fetch k eq_refl
                {| component := c; interval := true; inflight := k;
                   trace := replicate k (PollRequest (default "" (videoId c))) |})
      as [Htr _]; [simpl; lia |].
    exact Htr. }
  split; [exact Htrace |].
  rewrite Htrace, filter_app, length_app, no_fetch_in_polls, fetches_in_pairs.
  reflexivity.
Qed.

(** Three requests in flight together, on the uploaded video. *)
Lemma overlapping_polls_fetch_again_witness :
  length (filter (fun e => is_fetch e = true)
            (trace (VideoCaptureHttp.run uploaded
                      (replicate 3 TimerFires
                       ++ replicate 3 (StatusSettles (Fulfilled completed100)
                                                     (Fulfilled someResults))))))
  = 3.
Proof.
  apply (overlapping_polls_fetch_again uploaded 3 100%float (Fulfilled someResults)).
  reflexivity.
Defined.

Lemma http_step_error (r : Run) e :
  error (component (VideoCaptureHttp.step r e))
  = (if existsb is_error_snapshot
          (drop (length (trace r)) (trace (VideoCaptureHttp.step r e)))
     then Some "Processing failed. Please try again."
     else error (component r))
  /\ exists extra, trace (VideoCaptureHttp.step r e) = trace r ++ extra.
Proof.
  destruct r as [c i n tr]. destruct e as [|poll fetch]; simpl.
  - unfold VideoCaptureHttp.timerFires. simpl. destruct i; simpl.
    + rewrite drop_app_length. split; [reflexivity | eauto].
    + rewrite drop_all. split; [reflexivity | exists []; symmetry; apply app_nil_r].
  - destruct n as [|n]; simpl.
    + rewrite drop_all. split; [reflexivity | exists []; symmetry; apply app_nil_r].
    + unfold VideoCaptureHttp.statusSettled, request_settled. simpl.
      destruct poll as [snap|err]; simpl.
      * destruct (completed snap) eqn:Hc; [| destruct (errored snap) eqn:He]; simpl.
        -- assert (Hne : errored snap = false).
           { unfold completed, errored in *. apply String.eqb_eq in Hc.
             rewrite Hc. reflexivity. }
           destruct fetch as [d|err]; simpl; rewrite <- app_assoc, drop_app_length;
             simpl; rewrite Hne; split; eauto.
        -- rewrite drop_app_length. simpl. rewrite He. split; eauto.
        -- rewrite drop_app_length. simpl. rewrite He. split; eauto.
      * rewrite drop_all. split; [reflexivity | exists []; symmetry; apply app_nil_r].
Qed.

(** X13. Polling over HTTP never reports a failure of its own requests: in
    every run the error shown is the one the component had, unless a snapshot
    with status [error] was observed, and then it is "Processing failed.
    Please try again.".  A status or results request that fails leaves no
    message. *)
Theorem http_polling_shows_only_job_errors (c : Component) schedule :
  error (component (VideoCaptureHttp.run c schedule))
  = (if existsb is_error_snapshot (trace (VideoCaptureHttp.run c schedule))
     then Some "Processing failed. Please try again."
     else error c).
Proof.
  unfold VideoCaptureHttp.run.
  induction schedule as [|e schedule IH] using rev_ind; [reflexivity |].
  rewrite fold_left_app. simpl.
  destruct (http_step_error (fold_left VideoCaptureHttp.step schedule
                               (VideoCaptureHttp.startPolling c)) e)
    as [Herr [extra Htr]].
  rewrite Herr, Htr, drop_app_length, existsb_app, IH.
  destruct (existsb is_error_snapshot extra).
  - rewrite orb_true_r. reflexivity.
  - rewrite orb_false_r. reflexivity.
Qed.

Lemma read_failure (error : JsError) :
  read_status (MainIpc.failure error)
  = Some (VideoCaptureIpc.IpcFailure
            (error_text (or_else (MainIpc.payload_error error)
                                 (VStr (message error))))).
Proof. reflexivity. Qed.



End PollingMoreFacts.

(* --------------------------------------------------------------------- *)
(** *** Main process: the backend process, the window and the status shown *)
(* --------------------------------------------------------------------- *)

Section MainLifecycleFacts.
Import Js AppStore MainLifecycle.

Lemma run_app (darwin : bool) (pre post : list Event) :
  forall m,
    run darwin m (pre ++ post)
    = (fst (run darwin (fst (run darwin m pre)) post),
       snd (run darwin m pre) ++ snd (run darwin (fst (run darwin m pre)) post)).
Proof.
  induction pre as [|e pre IH]; intros m; simpl.
  - destruct (run darwin m post); reflexivity.
  - destruct (step darwin m e) as [m1 out1]. rewrite IH.
    destruct (run darwin m1 pre) as [m2 out2]; simpl.
    rewrite app_assoc. reflexivity.
Qed.




Lemma step_no_kill (darwin : bool) (m : Main) (e : Event) :
  is_set (pythonProcess m) = false ->
  is_set (pythonProcess (fst (step darwin m e))) = false
  /\ Forall (fun eff => is_kill eff = false) (snd (step darwin m e)).
Proof.
  intros Hp.
  destruct e; simpl; unfold send_status, kill_backend; rewrite ?Hp;
    destruct (is_null (mainWindow m)), (is_set (mainWindow m)), darwin; simpl;
    (split; [first [exact Hp | reflexivity] | repeat constructor]).
Qed.

Lemma run_no_kill (darwin : bool) (events : list Event) :
  forall m,
    is_set (pythonProcess m) = false ->
    Forall (fun eff => is_kill eff = false) (snd (run darwin m events)).
Proof.
  induction events as [|e events IH]; intros m Hp; simpl; [constructor |].
  destruct (step_no_kill darwin m e Hp) as [Hp1 Hout1].
  destruct (step darwin m e) as [m1 out1]; simpl in *.
  specialize (IH m1 Hp1).
  destruct (run darwin m1 events) as [m2 out2]; simpl in *.
  apply Forall_app. split; assumption.
Qed.



(** X17. A backend process that has ended is never killed: after its [close]
    event no later event makes the main process call [kill], whatever the
    platform, while every path that quits (closing the last window, quitting,
    Ctrl-C) kills a backend that is still running. *)
Theorem ended_backend_never_killed (darwin : bool) (m : Main)
    (before after : list Event) (exitCode : option number) :
  let m1 := fst (run darwin m (before ++ [ProcessClose exitCode])) in
  Forall (fun eff => is_kill eff = false) (snd (run darwin m1 after))
  /\ (forall m0 e, pythonProcess m0 = Live ->
        In e [WindowAllClosed; BeforeQuit; Sigint] ->
        existsb is_kill (snd (step darwin m0 e)) = true).
Proof.
  split.
  - apply run_no_kill. rewrite run_app. simpl.
    destruct (step darwin (fst (run darwin m before)) (ProcessClose exitCode))
      as [m1 out1] eqn:Hstep.
    simpl in Hstep. injection Hstep as <- _. reflexivity.
  - intros m0 e Hp He. simpl in He.
    destruct He as [<-|[<-|[<-|[]]]]; simpl; unfold kill_backend;
      rewrite Hp; reflexivity.
Qed.

Lemma step_no_send (darwin : bool) (m : Main) (e : Event) :
  is_set (mainWindow m) = false -> e <> Activate ->
  is_set (mainWindow (fst (step darwin m e))) = false
  /\ Forall (fun eff => is_send eff = false) (snd (step darwin m e)).
Proof.
  intros Hw Hne.
  destruct e; try congruence;
    simpl; unfold send_status, kill_backend; rewrite ?Hw;
    destruct (is_set (pythonProcess m)), darwin; simpl;
    (split; [first [exact Hw | reflexivity] | repeat constructor]).
Qed.

(** X18. Once the window is closed the backend's output reaches nobody: until
    the application is activated again the main process sends no status
    message, so the store keeps the status it had and the [stopped] status of
    a backend that is killed on quitting is never shown. *)
Theorem closed_window_hears_nothing (darwin electronAPI : bool)
    (events : list Event) :
  forall (m : Main) (s : AppState),
    is_set (mainWindow m) = false ->
    Activate ∉ events ->
    Forall (fun eff => is_send eff = false) (snd (run darwin m events))
    /\ fold_left (renderer electronAPI) (snd (run darwin m events)) s = s.
Proof.
  induction events as [|e events IH]; intros m s Hw Hno; simpl;
    [split; [constructor | reflexivity] |].
  apply not_elem_of_cons in Hno as [Hne Hno].
  destruct (step_no_send darwin m e Hw (not_eq_sym Hne)) as [Hw1 Hout1].
  destruct (step darwin m e) as [m1 out1]; simpl in *.
  assert (Hs1 : forall s0, fold_left (renderer electronAPI) out1 s0 = s0).
  { clear -Hout1. induction Hout1 as [|eff out Heff _ IHout]; intros s0;
      [reflexivity |].
    simpl. destruct eff; try discriminate Heff; apply IHout. }
  destruct (IH m1 s Hw1 Hno) as [Hout2 Hs2].
  destruct (run darwin m1 events) as [m2 out2]; simpl in *.
  split; [apply Forall_app; split; assumption |].
  rewrite fold_left_app, Hs1. exact Hs2.
Qed.

(** Quitting on Linux: the window closes, the backend is killed twice (on
    [window-all-closed] and on [before-quit]) and its [close] event is told
    to nobody. *)
Lemma closed_window_hears_nothing_witness :
  let after_close := fst (run false (fst (whenReady true "" initialMain)) [WindowClosed]) in
  snd (run false after_close [WindowAllClosed; BeforeQuit; ProcessClose None])
  = [Kill None; Quit; Kill (Some "SIGTERM")]
  /\ Forall (fun eff => is_send eff = false)
       (snd (run false after_close [WindowAllClosed; BeforeQuit; ProcessClose None]))
  /\ fold_left (renderer true)
       (snd (run false after_close [WindowAllClosed; BeforeQuit; ProcessClose None]))
       initialState
     = initialState.
Proof.
  intros after_close. split; [reflexivity |].
  apply (closed_window_hears_nothing false true
           [WindowAllClosed; BeforeQuit; ProcessClose None] after_close initialState).
  - reflexivity.
  - intros H. repeat (apply elem_of_cons in H as [H|H]; [discriminate H |]).
    apply elem_of_nil in H. exact H.
Defined.

End MainLifecycleFacts.

(* --------------------------------------------------------------------- *)
(** *** main.js as it is: no request reaches the backend *)
(* --------------------------------------------------------------------- *)

Section UnboundAxiosFacts.
Import Js Async Polling VideoCaptureIpc VideoCaptureIpcHandlers IpcBridge.

Lemma uploadVideo_fails (node : MainIpc.Node) (path : string) :
  uploadVideo node MainIpc.axios path
  = Some (Fulfilled
            (IpcFailure
               (Some match MainIpc.require_form_data node with
                     | MainIpc.Throws m => m
                     | MainIpc.Returns _ =>
                         match MainIpc.createReadStream node path with
                         | MainIpc.Throws m => m
                         | MainIpc.Returns _ => "axios is not defined"
                         end
                     end))).
Proof.
  unfold uploadVideo, MainIpc.upload_video.
  destruct (MainIpc.require_form_data node) as [[]|m]; [| reflexivity].
  destruct (MainIpc.createReadStream node path) as [stream|m]; reflexivity.
Qed.

(** X15. With main.js as it is, no video is ever processed over IPC.  The
    status handler answers every request with
    [{ success: false, error: 'axios is not defined' }], which the polling
    callback reads as an unsuccessful answer, and the upload handler answers
    every path with [{ success: false, error }], whatever Node and the backend
    do.  So [handleProcess], on a component that holds a video path, sends the
    upload and no process request and ends with [isProcessing] false, the
    error shown and polling off, whatever else runs while it awaits. *)
Theorem processing_never_starts (node : MainIpc.Node) (path : string)
    (process : string -> Settled (IpcResult unit))
    (during_upload during_process : Component -> Component) (c : Component)
    (Hpath : AppStore.videoPath (store c) = Some path)
    (Hgiven : path <> "") :
  (forall videoId,
     getVideoStatus MainIpc.axios videoId
     = Some (Fulfilled (IpcFailure (Some "axios is not defined"))))
  /\ exists msg,
       uploadVideo node MainIpc.axios path = Some (Fulfilled (IpcFailure (Some msg)))
       /\ let h := handleProcess_amid true (Fulfilled (IpcFailure (Some msg))) process
                     during_upload during_process c in
          calls h = [UploadVideo path]
          /\ AppStore.isProcessing (store (after h)) = false
          /\ error (after h)
             = Some (or_message (Some (or_message (Some msg) "Failed to upload video"))
                                "Failed to process video")
          /\ forall api, polls api (after h) = false.
Proof.
  split; [reflexivity |].
  eexists. split; [apply uploadVideo_fails |].
  apply String.eqb_neq in Hgiven.
  unfold handleProcess_amid, polls, startPolling, given. rewrite Hpath. simpl.
  rewrite Hgiven. simpl.
  repeat split. intros api. rewrite andb_false_r. reflexivity.
Qed.

(** A video picked in the dialog, with Node doing its part: the error shown is
    that [axios] is not defined. *)
Lemma processing_never_starts_witness :
  let node := {| MainIpc.require_form_data := MainIpc.Returns tt;
                 MainIpc.createReadStream := fun p => MainIpc.Returns (VStr p) |} in
  let c := after (handleFileSelect true false (Some "/videos/form.mp4")
                    Fixtures.uploaded) in
  let h := handleProcess_amid true (Fulfilled (IpcFailure (Some "axios is not defined")))
             (fun _ => Fulfilled (IpcSuccess tt)) (fun c => c) (fun c => c) c in
  uploadVideo node MainIpc.axios "/videos/form.mp4"
  = Some (Fulfilled (IpcFailure (Some "axios is not defined")))
  /\ calls h = [UploadVideo "/videos/form.mp4"]
  /\ AppStore.isProcessing (store (after h)) = false
  /\ error (after h) = Some "axios is not defined".
Proof.
  intros node c h.
  destruct (processing_never_starts node "/videos/form.mp4"
              (fun _ => Fulfilled (IpcSuccess tt)) (fun c => c) (fun c => c) c
              eq_refl) as (_ & msg & Hup & Hh).
  - discriminate.
  - split; [reflexivity |].
    assert (Hmsg : msg = "axios is not defined").
    { rewrite uploadVideo_fails in Hup. simpl in Hup. congruence. }
    subst msg. destruct Hh as (Hcalls & Hproc & Herr & _).
    split; [exact Hcalls | split; [exact Hproc | exact Herr]].
Defined.


End UnboundAxiosFacts.
